(** * Weather / soil / geocode proxy: netlify/functions/api.js

    A shallow embedding of the serverless proxy and of the parts of the
    JavaScript runtime its handlers rely on.

    - JavaScript numbers are modelled as exact rationals extended with NaN and
      the two infinities; arithmetic is exact (IEEE rounding and the sign of
      zero are not represented).
    - Parsed JSON documents are an inductive type; a property read that
      yields [undefined] is [None].
    - A route handler is a function from its environment (the outcome of the
      outbound fetch, the configured API key) and the query to the ordered
      list of effects it performs (outbound calls, calls on the response
      object) together with the way its promise settles.
    - The exported adapter is a function from the invocation event and the
      behaviour of [app._router.handle] to the way its own promise settles. *)

From Stdlib Require Import ZArith QArith Qround Qabs Lqa String Ascii List Bool Lia.
From stdpp Require Import base option list strings pretty gmap.

Open Scope string_scope.
Open Scope list_scope.
Open Scope Z_scope.

(** ** Numbers *)

Inductive number :=
| Fin (q : Q)
| NaN
| Inf (negative : bool).

(** Finite results are kept in lowest terms, so that equal values are equal
    terms whenever they come out of an operation. *)
Definition fin (q : Q) : number := Fin (Qred q).

Definition Qnegative (q : Q) : bool := Qnum q <? 0.

(** Truncation toward zero. *)
Definition Qtrunc (q : Q) : Z := Z.quot (Qnum q) (Zpos (Qden q)).

Definition num_add (x y : number) : number :=
  match x, y with
  | NaN, _ | _, NaN => NaN
  | Fin a, Fin b => fin (a + b)
  | Inf s, Fin _ | Fin _, Inf s => Inf s
  | Inf s, Inf t => if Bool.eqb s t then Inf s else NaN
  end.

Definition num_mul (x y : number) : number :=
  match x, y with
  | NaN, _ | _, NaN => NaN
  | Fin a, Fin b => fin (a * b)
  | Inf s, Fin a | Fin a, Inf s =>
      if Qeq_bool a 0 then NaN else Inf (xorb s (Qnegative a))
  | Inf s, Inf t => Inf (xorb s t)
  end.

Definition num_div (x y : number) : number :=
  match x, y with
  | NaN, _ | _, NaN => NaN
  | Fin a, Fin b =>
      if Qeq_bool b 0
      then (if Qeq_bool a 0 then NaN else Inf (Qnegative a))
      else fin (a / b)
  | Fin _, Inf _ => fin 0
  | Inf s, Fin b => Inf (xorb s (Qnegative b))
  | Inf _, Inf _ => NaN
  end.

(** The remainder operator [%]: the result takes the sign of the dividend. *)
Definition num_rem (x y : number) : number :=
  match x, y with
  | NaN, _ | _, NaN => NaN
  | Inf _, _ => NaN
  | Fin a, Inf _ => Fin a
  | Fin a, Fin b =>
      if Qeq_bool b 0 then NaN
      else fin (a - b * inject_Z (Qtrunc (a / b)))
  end.

(** [Math.abs] *)
Definition Math_abs (x : number) : number :=
  match x with
  | Fin q => fin (Qabs q)
  | NaN => NaN
  | Inf _ => Inf false
  end.



(** ToBoolean on a number: 0 and NaN are falsy. *)
Definition num_truthy (x : number) : bool :=
  match x with
  | Fin q => negb (Qeq_bool q 0)
  | NaN => false
  | Inf _ => true
  end.

Definition pow10 (n : nat) : Q := inject_Z (10 ^ Z.of_nat n).

(** Rounding to the nearest integer, halves away from zero, as
    [Number.prototype.toFixed] does on the magnitude. *)
Definition round_half_away (q : Q) : Z :=
  let n := Qfloor (Qabs q + (1 # 2)) in
  if Qnegative q then - n else n.

(** [Number(x.toFixed(d))]: below 10^21 the value is rounded to [d]
    decimals; from 10^21 on, and for NaN and the infinities, [toFixed]
    prints the number itself. *)
Definition toFixed (d : nat) (x : number) : number :=
  match x with
  | Fin q =>
      if Qle_bool (pow10 21) (Qabs q) then Fin q
      else fin (inject_Z (round_half_away (q * pow10 d)) / pow10 d)
  | _ => x
  end.

(** ** StringToNumber *)

Definition is_digit (c : ascii) : bool :=
  let n := nat_of_ascii c in (48 <=? n)%nat && (n <=? 57)%nat.

Definition digit_value (c : ascii) : Z := Z.of_nat (nat_of_ascii c) - 48.

(** Value of a hexadecimal, octal or binary digit, when it is one. *)
Definition radix_digit (radix : Z) (c : ascii) : option Z :=
  let n := Z.of_nat (nat_of_ascii c) in
  let v := if (48 <=? n) && (n <=? 57) then Some (n - 48)
           else if (97 <=? n) && (n <=? 102) then Some (n - 87)
           else if (65 <=? n) && (n <=? 70) then Some (n - 55)
           else None in
  match v with
  | Some d => if d <? radix then Some d else None
  | None => None
  end.

Fixpoint span_digits (l : list ascii) : list ascii * list ascii :=
  match l with
  | c :: r =>
      if is_digit c
      then let '(ds, rest) := span_digits r in (c :: ds, rest)
      else ([], l)
  | [] => ([], [])
  end.

Definition digits_value (ds : list ascii) : Z :=
  fold_left (fun acc c => acc * 10 + digit_value c) ds 0.

Fixpoint radix_value (radix : Z) (acc : Z) (l : list ascii) : option Z :=
  match l with
  | [] => Some acc
  | c :: r =>
      match radix_digit radix c with
      | Some d => radix_value radix (acc * radix + d) r
      | None => None
      end
  end.

(** m * 10^e *)
Definition scale10 (m e : Z) : Q :=
  if 0 <=? e then inject_Z (m * 10 ^ e)
  else Qmake m (Z.to_pos (10 ^ (- e))).

(** ExponentPart: [e] or [E], an optional sign, at least one digit. *)
Definition parse_exponent (l : list ascii) : option Z :=
  match l with
  | [] => Some 0
  | c :: r =>
      if (Ascii.eqb c "e" || Ascii.eqb c "E")%bool then
        let '(neg, r') :=
          match r with
          | s :: t => if Ascii.eqb s "-" then (true, t)
                      else if Ascii.eqb s "+" then (false, t)
                      else (false, r)
          | [] => (false, r)
          end in
        match span_digits r' with
        | (d :: ds, []) =>
            let v := digits_value (d :: ds) in Some (if neg then - v else v)
        | _ => None
        end
      else None
  end.

(** StrUnsignedDecimalLiteral without the [Infinity] case. *)
Definition parse_unsigned_decimal (l : list ascii) : option Q :=
  let '(ip, r1) := span_digits l in
  let '(fp, r2) :=
    match r1 with
    | c :: t => if Ascii.eqb c "." then span_digits t else ([], r1)
    | [] => ([], r1)
    end in
  match ip, fp with
  | [], [] => None
  | _, _ =>
      match parse_exponent r2 with
      | Some e => Some (scale10 (digits_value (ip ++ fp)) (e - Z.of_nat (length fp)))
      | None => None
      end
  end.

Definition is_space (c : ascii) : bool :=
  let n := nat_of_ascii c in ((9 <=? n)%nat && (n <=? 13)%nat) || (n =? 32)%nat.

Fixpoint drop_spaces (l : list ascii) : list ascii :=
  match l with
  | c :: r => if is_space c then drop_spaces r else l
  | [] => []
  end.

Definition trim_spaces (l : list ascii) : list ascii :=
  rev (drop_spaces (rev (drop_spaces l))).

Definition chars (s : string) : list ascii := list_ascii_of_string s.

(** [Number(s)] for a string: white space is trimmed, the empty string is 0,
    a decimal literal (sign, fraction and exponent allowed), an unsigned
    hexadecimal, octal or binary literal, or [Infinity] is its value,
    anything else is NaN. *)
Definition StringToNumber (s : string) : number :=
  let l := trim_spaces (chars s) in
  let unsigned (neg : bool) (u : list ascii) : number :=
    if bool_decide (u = chars "Infinity") then Inf neg
    else match parse_unsigned_decimal u with
         | Some q => fin (if neg then - q else q)
         | None => NaN
         end in
  let radix (r : Z) (ds : list ascii) : number :=
    match ds with
    | [] => NaN
    | _ => match radix_value r 0 ds with
           | Some v => fin (inject_Z v)
           | None => NaN
           end
    end in
  match l with
  | [] => fin 0
  | "-"%char :: u => unsigned true u
  | "+"%char :: u => unsigned false u
  | "0"%char :: x :: ds =>
      if (Ascii.eqb x "x" || Ascii.eqb x "X")%bool then radix 16 ds
      else if (Ascii.eqb x "o" || Ascii.eqb x "O")%bool then radix 8 ds
      else if (Ascii.eqb x "b" || Ascii.eqb x "B")%bool then radix 2 ds
      else unsigned false l
  | _ => unsigned false l
  end.

(** ** Parsed JSON values *)

#[warnings="-register-all"]
Inductive json :=
| JNull
| JBool (b : bool)
| JNum (n : number)
| JStr (s : string)
| JArr (items : list json)
| JObj (fields : list (string * json)).

(** ** Exceptions *)

Record error := Error { message : string }.

Inductive completion (A : Type) :=
| Normal (a : A)
| Thrown (e : error).
Arguments Normal {A} a.
Arguments Thrown {A} e.

Definition TypeError (msg : string) : error := Error msg.

(** ** Property reads *)

Definition assoc (k : string) (fs : list (string * json)) : option json :=
  snd <$> find (fun p => String.eqb (fst p) k) fs.

Definition of_nat (n : nat) : number := fin (inject_Z (Z.of_nat n)).

(** [v.k] on a value that is neither null nor undefined.  Own data
    properties only: a method inherited from a prototype is not data, and
    every read the handlers make through one ends in [undefined]. *)
Definition get_prop (v : json) (k : string) : option json :=
  match v with
  | JObj fs => assoc k fs
  | JArr l =>
      if String.eqb k "length" then Some (JNum (of_nat (length l))) else None
  | JStr s =>
      if String.eqb k "length" then Some (JNum (of_nat (String.length s))) else None
  | _ => None
  end.

(** [v[i]] on a value that is neither null nor undefined. *)
Definition get_index (v : json) (i : nat) : option json :=
  match v with
  | JArr l => l !! i
  | JStr s => (fun c => JStr (String c EmptyString)) <$> (chars s !! i)
  | JObj fs => assoc (pretty i) fs
  | _ => None
  end.

Definition cannot_read (base k : string) : error :=
  TypeError ("Cannot read properties of " +:+ base +:+ " (reading '" +:+ k +:+ "')").

(** [base.k]: a TypeError when [base] is null or undefined. *)
Definition get (base : option json) (k : string) : completion (option json) :=
  match base with
  | None => Thrown (cannot_read "undefined" k)
  | Some JNull => Thrown (cannot_read "null" k)
  | Some v => Normal (get_prop v k)
  end.

(** [base?.k] *)
Definition get_opt (base : option json) (k : string) : option json :=
  match base with
  | None | Some JNull => None
  | Some v => get_prop v k
  end.

(** [base[i]] and [base?.[i]] *)
Definition at_index (base : option json) (i : nat) : completion (option json) :=
  match base with
  | None => Thrown (cannot_read "undefined" (pretty i))
  | Some JNull => Thrown (cannot_read "null" (pretty i))
  | Some v => Normal (get_index v i)
  end.

Definition at_index_opt (base : option json) (i : nat) : option json :=
  match base with
  | None | Some JNull => None
  | Some v => get_index v i
  end.

(** ToBoolean *)
Definition truthy (v : option json) : bool :=
  match v with
  | None | Some JNull => false
  | Some (JBool b) => b
  | Some (JNum n) => num_truthy n
  | Some (JStr s) => negb (String.eqb s "")
  | Some (JArr _) | Some (JObj _) => true
  end.

(** [v === s] for a string [s] *)
Definition strictly_equals_string (v : option json) (s : string) : bool :=
  match v with
  | Some (JStr x) => String.eqb x s
  | _ => false
  end.

(** [a || b] *)
Definition or_else (a b : option json) : option json :=
  if truthy a then a else b.

(** ** Conversions to primitives *)

(** Converting a parsed object to a primitive goes through
    [Object.prototype.toString]; an own [toString] member (never callable in
    parsed JSON) hides it and the conversion throws.  An array converts every
    element on the way. *)
Fixpoint ToPrimitive_throws (v : json) : bool :=
  match v with
  | JObj fs => bool_decide (is_Some (assoc "toString" fs))
  | JArr l => existsb ToPrimitive_throws l
  | _ => false
  end.

Definition conversion_error : error :=
  TypeError "Cannot convert object to primitive value".

(** The numeric value of a primitive or of an array or object seen through
    its string form: an empty array prints as the empty string, a
    one-element array as its element, a longer one contains a comma. *)
Fixpoint numeric_value (v : json) : number :=
  match v with
  | JNull => fin 0
  | JBool b => fin (if b then 1 else 0)
  | JNum n => n
  | JStr s => StringToNumber s
  | JArr [] => fin 0
  | JArr [x] =>
      match x with
      | JNull => fin 0
      | JBool _ => NaN
      | JNum n => n
      | JStr s => StringToNumber s
      | JArr _ => numeric_value x
      | JObj _ => NaN
      end
  | JArr _ => NaN
  | JObj _ => NaN
  end.

(** [Number(v)] *)
Definition ToNumber (v : option json) : completion number :=
  match v with
  | None => Normal NaN
  | Some j => if ToPrimitive_throws j then Thrown conversion_error
              else Normal (numeric_value j)
  end.

(** ** The host runtime

    What the program takes from its host and cannot be computed from the
    source: how a number prints, how a date string parses (ECMAScript fixes
    only the ISO forms), the local time zone, [Math.sin], [parseFloat] and
    the clock. *)

Record runtime := Runtime {
  Number_toString : Q -> string;
  (** [Date.parse]: milliseconds since the epoch, [None] for NaN *)
  Date_parse : string -> option Z;
  (** offset of local time from UTC, in milliseconds, at a UTC time *)
  LocalTZA : Z -> Z;
  Math_sin_fin : Q -> Q;
  parseFloat : option json -> number;
  (** [new Date().toISOString()] *)
  now_ISO : string
}.

(** ** Dates *)

Definition msPerDay : Z := 86400000.

(** Days since 1970-01-01 of a civil date (proleptic Gregorian). *)
Definition days_from_civil (y m d : Z) : Z :=
  let y := if m <=? 2 then y - 1 else y in
  let era := y / 400 in
  let yoe := y - era * 400 in
  let doy := (153 * (if 2 <? m then m - 3 else m + 9) + 2) / 5 + d - 1 in
  let doe := yoe * 365 + yoe / 4 - yoe / 100 + doy in
  era * 146097 + doe - 719468.

(** MonthFromTime: the month, 0 to 11, of a time value. *)
Definition MonthFromTime (t : Z) : Z :=
  let z := t / msPerDay + 719468 in
  let era := z / 146097 in
  let doe := z - era * 146097 in
  let yoe := (doe - doe / 1460 + doe / 36524 - doe / 146096) / 365 in
  let doy := doe - (365 * yoe + yoe / 4 - yoe / 100) in
  let mp := (5 * doy + 2) / 153 in
  (if mp <? 10 then mp + 3 else mp - 9) - 1.

(** TimeClip *)
Definition TimeClip (n : number) : option Z :=
  match n with
  | Fin q => if Qle_bool (Qabs q) (inject_Z 8640000000000000) then Some (Qtrunc q) else None
  | _ => None
  end.

(** The date-only ISO form [YYYY-MM-DD], read as UTC midnight; this is the
    form in which the archive service reports its days. *)
Definition parse_date_only (s : string) : option Z :=
  match chars s with
  | [y1; y2; y3; y4; s1; m1; m2; s2; d1; d2] =>
      if forallb is_digit [y1; y2; y3; y4; m1; m2; d1; d2]
         && Ascii.eqb s1 "-" && Ascii.eqb s2 "-"
      then
        let y := digits_value [y1; y2; y3; y4] in
        let m := digits_value [m1; m2] in
        let d := digits_value [d1; d2] in
        if (1 <=? m) && (m <=? 12) && (1 <=? d) && (d <=? 31)
        then Some (days_from_civil y m d * msPerDay)
        else None
      else None
  | _ => None
  end.

Section Runtime.

Variable rt : runtime.

(** [Math.sin]: NaN outside the finite numbers. *)
Definition Math_sin (x : number) : number :=
  match x with
  | Fin q => fin (Math_sin_fin rt q)
  | _ => NaN
  end.

(** ToString of a value whose conversion does not throw. *)
Fixpoint ToString (v : json) : string :=
  match v with
  | JNull => "null"
  | JBool b => if b then "true" else "false"
  | JNum (Fin q) => Number_toString rt q
  | JNum NaN => "NaN"
  | JNum (Inf s) => if s then "-Infinity" else "Infinity"
  | JStr s => s
  | JArr l =>
      (fix join (l : list json) : string :=
         match l with
         | [] => ""
         | x :: r =>
             let e := match x with JNull => "" | _ => ToString x end in
             match r with
             | [] => e
             | _ => e +:+ "," +:+ join r
             end
         end) l
  | JObj _ => "[object Object]"
  end.

(** [new Date(v)]: the time value, [None] for an invalid date. *)
Definition new_Date (v : option json) : completion (option Z) :=
  match v with
  | None => Normal None
  | Some j =>
      if ToPrimitive_throws j then Thrown conversion_error
      else match j with
           | JStr s => Normal (Date_parse rt s)
           | JArr _ | JObj _ => Normal (Date_parse rt (ToString j))
           | _ => Normal (TimeClip (numeric_value j))
           end
  end.

(** [date.getMonth()] of a valid date: the month in local time. *)
Definition getMonth (t : Z) : Z := MonthFromTime (t + LocalTZA rt t).

(** ** JSON.stringify *)

Definition dquote : string := String "034"%char EmptyString.

Definition hex_digit (n : nat) : string :=
  String (nth n (chars "0123456789abcdef") "0"%char) EmptyString.

Definition escape_char (c : ascii) : string :=
  let n := nat_of_ascii c in
  if (n =? 34)%nat then "\" +:+ dquote
  else if (n =? 92)%nat then "\\"
  else if (n =? 8)%nat then "\b"
  else if (n =? 9)%nat then "\t"
  else if (n =? 10)%nat then "\n"
  else if (n =? 12)%nat then "\f"
  else if (n =? 13)%nat then "\r"
  else if (n <? 32)%nat then "\u00" +:+ hex_digit (n / 16) +:+ hex_digit (n mod 16)
  else String c EmptyString.

Definition quote (s : string) : string :=
  dquote +:+ String.concat "" (map escape_char (chars s)) +:+ dquote.

Fixpoint JSON_stringify (v : json) : string :=
  match v with
  | JNull => "null"
  | JBool b => if b then "true" else "false"
  | JNum (Fin q) => Number_toString rt q
  | JNum _ => "null"
  | JStr s => quote s
  | JArr l =>
      "[" +:+
      (fix items (l : list json) : string :=
         match l with
         | [] => ""
         | x :: r =>
             match r with
             | [] => JSON_stringify x
             | _ => JSON_stringify x +:+ "," +:+ items r
             end
         end) l +:+ "]"
  | JObj fs =>
      "{" +:+
      (fix members (fs : list (string * json)) : string :=
         match fs with
         | [] => ""
         | (k, x) :: r =>
             match r with
             | [] => quote k +:+ ":" +:+ JSON_stringify x
             | _ => quote k +:+ ":" +:+ JSON_stringify x +:+ "," +:+ members r
             end
         end) fs +:+ "}"
  end.

End Runtime.

(** ** Effects of a route handler *)

(** The four outbound requests, by the service queried and the values put
    into the URL. *)
Inductive upstream :=
| SoilGrids (lat lon : string)
| OpenMeteoArchive (lat lon : string)
| Nominatim (q : string)
| OpenWeather (lat lon key : string).

Inductive effect :=
| Fetch (u : upstream)
| ResStatus (code : Z)
| ResJson (data : json)
| ResSend (data : string)
| ResSet (name value : string).

(** What [await fetch(url)] and then [await r.json()] give. *)
Inductive json_body :=
| Malformed (e : error)
| Parsed (j : json).

Inductive fetch_outcome :=
| FetchRejected (e : error)
| FetchResponse (status : Z) (body : json_body).

Record env := Env {
  fetch : upstream -> fetch_outcome;
  (** [process.env.OPENWEATHER_API_KEY] *)
  API_KEY : option string
}.

(** The response object a handler is given.  Express's response has
    [setHeader] and [set], and its [status] returns the response so that
    [res.status(c).json(d)] chains; the object the adapter passes (lines
    196-200) has only [status], [json] and [send], and its [status] returns
    undefined. *)
Record response_object := ResponseObject {
  has_setHeader : bool;
  has_set : bool;
  status_chains : bool
}.

Definition express_res : response_object := ResponseObject true true true.
Definition stub_res : response_object := ResponseObject false false false.

(** A handler run: the effects performed, in order, and how it ended. *)
Definition M (A : Type) : Type := list effect * completion A.

#[global] Instance completion_ret : MRet completion := fun A a => Normal a.
#[global] Instance completion_bind : MBind completion := fun A B f m =>
  match m with
  | Normal a => f a
  | Thrown e => Thrown e
  end.

#[global] Instance M_ret : MRet M := fun A a => ([], Normal a).
#[global] Instance M_bind : MBind M := fun A B f m =>
  match m with
  | (l, Normal a) => let '(l', r) := f a in (l ++ l', r)
  | (l, Thrown e) => (l, Thrown e)
  end.

Definition throw {A} (e : error) : M A := ([], Thrown e).
Definition perform (e : effect) : M unit := ([e], Normal tt).
Definition lift {A} (c : completion A) : M A := ([], c).

(** [try { m } catch (e) { h e }] *)
Definition try_catch {A} (m : M A) (h : error -> M A) : M A :=
  match m with
  | (l, Thrown e) => let '(l', r) := h e in (l ++ l', r)
  | _ => m
  end.

(** [res.json(data)] *)
Definition res_json (data : json) : M unit := perform (ResJson data).

(** [res.status(code).json(data)]: the code is recorded, then [json] is
    called on what [status] returned. *)
Definition res_status_json (res : response_object) (code : Z) (data : json) : M unit :=
  perform (ResStatus code) ;;
  if status_chains res then perform (ResJson data)
  else throw (cannot_read "undefined" "json").

(** [await fetch(url)], the [r.ok] test and [await r.json()] *)
Definition do_fetch (e : env) (u : upstream) : M (Z * json_body) :=
  perform (Fetch u) ;;
  match fetch e u with
  | FetchRejected err => throw err
  | FetchResponse status body => mret (status, body)
  end.

Definition ok (status : Z) : bool := (200 <=? status) && (status <=? 299).

Definition read_json (b : json_body) : M json :=
  match b with
  | Malformed e => throw e
  | Parsed j => mret j
  end.

(** A query parameter is used when it is a non-empty string. *)
Definition present (v : option string) : bool :=
  match v with
  | Some s => negb (String.eqb s "")
  | None => false
  end.

Definition error_body (msg : string) : json := JObj [("error", JStr msg)].

(** An object literal whose members may be undefined; [JSON.stringify]
    leaves those out. *)
Definition object_of (members : list (string * option json)) : json :=
  JObj (omap (fun m => pair (fst m) <$> snd m) members).

(** ** The route handlers (lines 18-161) *)

Section Handlers.

Variable rt : runtime.

(** *** /soil *)

(** [layers.find(l => l.name === name)]: a null element met before a match
    throws. *)
Fixpoint find_layer (name : string) (l : list json) : completion (option json) :=
  match l with
  | [] => Normal None
  | x :: r =>
      n ← get (Some x) "name";
      if strictly_equals_string n name then Normal (Some x)
      else find_layer name r
  end.

(** [const byName = (name) => layers.find(...) || {}] *)
Definition byName (layers : option json) (name : string) : completion json :=
  match layers with
  | Some (JArr l) =>
      found ← find_layer name l;
      Normal (default (JObj []) found)
  | _ => Thrown (TypeError "layers.find is not a function")
  end.

(** [firstVal]: [None] is the [null] it returns when the mean is
    undefined. *)
Definition firstVal (layer : json) : completion (option number) :=
  let d := at_index_opt (get_prop layer "depths") 0 in
  let mean := get_opt (get_opt d "values") "mean" in
  match mean with
  | None => Normal None
  | Some (JNum n) => Normal (Some (toFixed 2 n))
  | Some JNull => Thrown (cannot_read "null" "toFixed")
  | Some _ => Thrown (TypeError "mean.toFixed is not a function")
  end.

(** [firstVal(...) || d] *)
Definition or_default (v : option number) (d : number) : number :=
  match v with
  | Some n => if num_truthy n then n else d
  | None => d
  end.

(** Lines 37-50: the object sent on the primary path. *)
Definition soil_project (j : json) : completion json :=
  let layers :=
    or_else (or_else (get_opt (get_opt (Some j) "properties") "layers")
                     (get_opt (Some j) "layers"))
            (Some (JArr [])) in
  ph ← byName layers "phh2o" ≫= firstVal;
  nitrogen ← byName layers "nitrogen" ≫= firstVal;
  soc ← byName layers "soc" ≫= firstVal;
  Normal (JObj [("ph", JNum (or_default ph (fin 6.5)));
                ("nitrogen", JNum (or_default nitrogen (fin 0.15)));
                ("organic_matter", JNum (num_mul (or_default soc (fin 1.5)) (fin 1.724)));
                ("source", JStr "soilgrids")]).

(** Line 54: [Math.abs(Math.sin(lat*lon) * 10000)] *)
Definition hash (lat lon : string) : number :=
  Math_abs (num_mul (Math_sin rt (num_mul (StringToNumber lat) (StringToNumber lon)))
                    (fin 10000)).

(** Lines 55-60: the object sent on the fallback path. *)
Definition soil_mock (lat lon : string) : json :=
  let hash := hash lat lon in
  JObj [("ph", JNum (num_add (fin 5.5) (num_rem hash (fin 3))));
        ("nitrogen", JNum (num_add (fin 0.1) (num_div (num_rem hash (fin 20)) (fin 100))));
        ("organic_matter", JNum (num_add (fin 1.0) (num_div (num_rem hash (fin 30)) (fin 10))));
        ("source", JStr "mock")].

(** Lines 25-50: the inner [try] block. *)
Definition soil_primary (e : env) (lat lon : string) : M unit :=
  '(status, body) ← do_fetch e (SoilGrids lat lon);
  if negb (ok status) then throw (Error ("SoilGrids error " +:+ pretty status))
  else
    j ← read_json body;
    out ← lift (soil_project j);
    res_json out.

Definition soil (res : response_object) (e : env) (query : gmap string string) : M unit :=
  try_catch
    (let lat := query !! "lat" in
     let lon := query !! "lon" in
     if negb (present lat) || negb (present lon)
     then res_status_json res 400 (error_body "Missing lat/lon")
     else
       let lat := default "" lat in
       let lon := default "" lon in
       try_catch (soil_primary e lat lon)
                 (fun soilErr => res_json (soil_mock lat lon)))
    (fun err => res_status_json res 500 (error_body "Soil data fetch failed")).

(** *** /health *)

Definition health : M unit :=
  res_json (JObj [("status", JStr "ok"); ("timestamp", JStr (now_ISO rt))]).

(** *** /rain-history *)

Definition monthNames : list string :=
  ["Jan"; "Feb"; "Mar"; "Apr"; "May"; "Jun"; "Jul"; "Aug"; "Sep"; "Oct"; "Nov"; "Dec"].

(** [Number(val) || 0] *)
Definition precipitation (val : json) : completion number :=
  n ← ToNumber (Some val);
  Normal (if num_truthy n then n else fin 0).

(** The callback of [precip.forEach] (lines 88-94) on the array [monthly]. *)
Definition add_day (time : option json) (monthly : list number) (i : nat) (val : json)
  : completion (list number) :=
  ti ← at_index time i;
  date ← new_Date rt ti;
  match date with
  | Some t =>
      let m := Z.to_nat (getMonth rt t) in
      p ← precipitation val;
      Normal (alter (fun x => num_add x p) m monthly)
  | None => Normal monthly
  end.

Fixpoint forEach_day (time : option json) (monthly : list number) (i : nat)
    (precip : list json) : completion (list number) :=
  match precip with
  | [] => Normal monthly
  | val :: rest =>
      monthly' ← add_day time monthly i val;
      forEach_day time monthly' (S i) rest
  end.

(** The callback of [monthNames.map] (lines 96-99). *)
Definition month_entry (monthly : list number) (i : nat) (name : string) : completion json :=
  match monthly !! i with
  | Some x => Normal (JObj [("month", JStr name); ("rainfall", JNum (toFixed 1 x))])
  | None => Thrown (cannot_read "undefined" "toFixed")
  end.

(** Lines 83-99: from the parsed archive response to the array sent. *)
Definition rain_result (data : json) : completion json :=
  let daily := or_else (get_opt (Some data) "daily") (Some (JObj [])) in
  let precip := or_else (get_opt daily "precipitation_sum") (Some (JArr [])) in
  let monthly := replicate 12 (fin 0) in
  match precip with
  | Some (JArr days) =>
      monthly ← forEach_day (get_opt daily "time") monthly 0 days;
      result ← mapM (fun p => month_entry monthly (fst p) (snd p)) (imap pair monthNames);
      Normal (JArr result)
  | _ => Thrown (TypeError "precip.forEach is not a function")
  end.

Definition rain_history (res : response_object) (e : env) (query : gmap string string) : M unit :=
  try_catch
    (let lat := query !! "lat" in
     let lon := query !! "lon" in
     if negb (present lat) || negb (present lon)
     then res_status_json res 400 (error_body "Missing lat/lon")
     else
       '(status, body) ← do_fetch e (OpenMeteoArchive (default "" lat) (default "" lon));
       if negb (ok status) then throw (Error ("Open-Meteo error " +:+ pretty status))
       else
         data ← read_json body;
         result ← lift (rain_result data);
         res_json result)
    (fun err => res_status_json res 500 (error_body "Rain history fetch failed")).

(** *** /geocode *)

(** [data.length === 0] *)
Definition length_is_zero (data : json) : bool :=
  match get_prop data "length" with
  | Some (JNum (Fin q)) => Qeq_bool q 0
  | _ => false
  end.

Definition geocode (res : response_object) (e : env) (query : gmap string string) : M unit :=
  try_catch
    (let q := query !! "q" in
     if negb (present q)
     then res_status_json res 400 (error_body "Missing query")
     else
       '(status, body) ← do_fetch e (Nominatim (default "" q));
       if negb (ok status) then throw (Error ("Nominatim error " +:+ pretty status))
       else
         data ← read_json body;
         if negb (truthy (Some data)) || length_is_zero data
         then res_status_json res 404 (error_body "Location not found")
         else
           first ← lift (at_index (Some data) 0);
           lat ← lift (get first "lat");
           res_json (object_of
             [("lat", Some (JNum (parseFloat rt lat)));
              ("lon", Some (JNum (parseFloat rt (get_opt first "lon"))));
              ("display_name", get_opt first "display_name");
              ("class", get_opt first "class");
              ("type", get_opt first "type")]))
    (fun err => res_status_json res 500 (error_body "Geocoding failed")).

(** *** /weather *)

Definition weather (res : response_object) (e : env) (query : gmap string string) : M unit :=
  try_catch
    (let lat := query !! "lat" in
     let lon := query !! "lon" in
     if negb (present lat) || negb (present lon)
     then res_status_json res 400 (error_body "Missing lat/lon")
     else if negb (present (API_KEY e))
     then res_status_json res 500 (error_body "OpenWeather API key not configured")
     else
       '(status, body) ← do_fetch e
          (OpenWeather (default "" lat) (default "" lon) (default "" (API_KEY e)));
       if negb (ok status) then throw (Error ("OpenWeather error " +:+ pretty status))
       else
         data ← read_json body;
         main ← lift (get (Some data) "main");
         temp ← lift (get main "temp");
         humidity ← lift (get main "humidity");
         conditions ← lift (get (Some data) "weather");
         condition ← lift (at_index conditions 0);
         description ← lift (get condition "description");
         wind ← lift (get (Some data) "wind");
         speed ← lift (get wind "speed");
         res_json (object_of
           [("temperature", temp);
            ("humidity", humidity);
            ("description", description);
            ("wind_speed", speed);
            ("location", get_opt (Some data) "name")]))
    (fun err => res_status_json res 500 (error_body "Weather data fetch failed")).

End Handlers.

(** ** What a handler run leaves on an Express response *)

(** What Express sends: the value given to the first [res.json], with the
    status set by then, 200 when none was. *)
Fixpoint sent_from (code : Z) (l : list effect) : option (Z * json) :=
  match l with
  | [] => None
  | ResStatus c :: rest => sent_from c rest
  | ResJson data :: _ => Some (code, data)
  | _ :: rest => sent_from code rest
  end.

Definition express_sent (l : list effect) : option (Z * json) := sent_from 200 l.

(** The outbound calls made. *)
Definition fetches (l : list effect) : list upstream :=
  omap (fun e => match e with Fetch u => Some u | _ => None end) l.

(** ** The application: middleware and routes (lines 13-161) *)

Record request := Request {
  method : string;
  query : gmap string string;
  req_path : string;
  req_headers : gmap string string;
  url : string
}.

(** How a call of [app._router.handle(req, res, out)] ends: without calling
    [out], by calling [out(err)] ([None] when it is called without an
    error), or by throwing. *)
Inductive dispatch_end :=
| Quiet
| Out (err : option error)
| Raise (e : error).

Record dispatch := Dispatch {
  d_calls : list effect;
  d_end : dispatch_end
}.

Definition to_lower (s : string) : string :=
  string_of_list_ascii
    (map (fun c => let n := nat_of_ascii c in
                   if (65 <=? n)%nat && (n <=? 90)%nat then ascii_of_nat (n + 32) else c)
         (chars s)).

(** Line 13, [cors()] with its defaults: the allowed origin is set with
    [res.setHeader]; a preflight request is answered at once (of the
    preflight reply only the origin and the status are listed). *)
Definition use_cors (req : request) (res : response_object) : M bool :=
  if has_setHeader res then
    perform (ResSet "Access-Control-Allow-Origin" "*") ;;
    if String.eqb (to_lower (method req)) "options"
    then perform (ResStatus 204) ;; mret false
    else mret true
  else throw (TypeError "res.setHeader is not a function").

(** Line 15 *)
Definition use_no_store (res : response_object) : M bool :=
  if has_set res then perform (ResSet "Cache-Control" "no-store") ;; mret true
  else throw (TypeError "res.set is not a function").

(** [app.get(path, handler)] answers GET and HEAD. *)
Definition is_get (req : request) : bool :=
  let m := to_lower (method req) in String.eqb m "get" || String.eqb m "head".

Section Application.

Variable rt : runtime.

Definition routes (res : response_object) (e : env) (req : request) : option (M unit) :=
  if negb (is_get req) then None
  else if String.eqb (url req) "/soil" then Some (soil rt res e (query req))
  else if String.eqb (url req) "/health" then Some (health rt)
  else if String.eqb (url req) "/rain-history" then Some (rain_history rt res e (query req))
  else if String.eqb (url req) "/geocode" then Some (geocode rt res e (query req))
  else if String.eqb (url req) "/weather" then Some (weather res e (query req))
  else None.

(** The route layer alone: the request is handed to the handler registered
    for its method and path.  The promise an async handler returns is not
    observed by Express 4, so the call ends without [out] however the
    handler ends; a request no route answers reaches [out] without an
    error. *)
Definition route_layer (res : response_object) (e : env) (req : request) : dispatch :=
  match routes res e req with
  | Some run => Dispatch (fst run) Quiet
  | None => Dispatch [] (Out None)
  end.

(** Express 4 runs the stack in order: the two middleware, then the routes.
    An exception thrown by a middleware goes to the error handlers, of which
    there are none, and so to [out]. *)
Definition app_router_handle (res : response_object) (e : env) (req : request) : dispatch :=
  match (next ← use_cors req res; if next : bool then use_no_store res else mret false) with
  | (l, Thrown err) => Dispatch l (Out (Some err))
  | (l, Normal false) => Dispatch l Quiet
  | (l, Normal true) =>
      let d := route_layer res e req in Dispatch (l ++ d_calls d) (d_end d)
  end.

(** ** The exported adapter (lines 164-244) *)

Record event := Event {
  path : string;
  httpMethod : string;
  queryStringParameters : option (gmap string string);
  event_headers : option (gmap string string)
}.

Record envelope := Envelope {
  statusCode : Z;
  headers : list (string * string);
  body : string
}.

(** How the promise of the adapter settles, if it does. *)
Inductive settled :=
| Returned (r : envelope)
| Pending
| Rejected (e : error).

(** [s.replace(pattern, replacement)] with a string pattern: the first
    occurrence only. *)
Definition replace_first (pattern replacement s : string) : string :=
  match String.index 0 pattern s with
  | Some i =>
      String.substring 0 i s +:+ replacement +:+
      String.substring (i + String.length pattern)
                       (String.length s - (i + String.length pattern)) s
  | None => s
  end.

(** The three callbacks of lines 197-199, acting on [statusCode] and
    [responseData]. *)
Definition capture (st : Z * string) (c : effect) : Z * string :=
  match c with
  | ResStatus code => (code, snd st)
  | ResJson data => (fst st, JSON_stringify rt data)
  | ResSend data => (fst st, data)
  | _ => st
  end.

(** The outcome of the [try] block of lines 184-233: it runs to its end
    with the two variables set, it leaves through [catch], or it stays
    suspended at an [await], with whatever the callbacks captured. *)
Inductive attempt :=
| Completed (statusCode : Z) (responseData : string)
| Caught (error : option error)
| Suspended (statusCode : Z) (responseData : string).

(** [await new Promise((resolve, reject) => { app._router.handle(..., reject) })]:
    [resolve] is never called, so the promise settles only by rejection. *)
Definition await_dispatch (d : dispatch) (st : Z * string) : attempt :=
  let st := fold_left capture (d_calls d) st in
  match d_end d with
  | Quiet => Suspended (fst st) (snd st)
  | Out err => Caught err
  | Raise e => Caught (Some e)
  end.

Definition cors_headers : list (string * string) :=
  [("Access-Control-Allow-Origin", "*");
   ("Access-Control-Allow-Headers", "Content-Type");
   ("Access-Control-Allow-Methods", "GET, POST, PUT, DELETE, OPTIONS")].

(** Lines 165-174 and the [{ ...req, url }] of each branch. *)
Definition request_of (ev : event) (url : string) : request :=
  Request (httpMethod ev)
          (default ∅ (queryStringParameters ev))
          (replace_first "/.netlify/functions/api" "" (path ev))
          (default ∅ (event_headers ev))
          url.

Definition handler (router_handle : request -> dispatch) (ev : event) : settled :=
  let path := replace_first "/.netlify/functions/api" "" (path ev) in
  let method := httpMethod ev in
  let responseData := "" in
  let statusCode := 200 in
  let headers := cors_headers in
  if String.eqb method "OPTIONS" then Returned (Envelope 200 headers "")
  else
    let dispatch_to (url : string) : attempt :=
      await_dispatch (router_handle (request_of ev url)) (statusCode, responseData) in
    let tried :=
      if String.eqb path "/health" then
        Completed statusCode
          (JSON_stringify rt (JObj [("status", JStr "ok"); ("timestamp", JStr (now_ISO rt))]))
      else if String.eqb path "/soil" then dispatch_to "/soil"
      else if String.eqb path "/rain-history" then dispatch_to "/rain-history"
      else if String.eqb path "/geocode" then dispatch_to "/geocode"
      else if String.eqb path "/weather" then dispatch_to "/weather"
      else Completed 404 (JSON_stringify rt (error_body "Not found")) in
    match tried with
    | Completed statusCode responseData => Returned (Envelope statusCode headers responseData)
    | Caught (Some error) =>
        Returned (Envelope 500 headers (JSON_stringify rt (error_body (message error))))
    | Caught None =>
        Rejected (cannot_read "undefined" "message")
    | Suspended _ _ => Pending
    end.

End Application.

(** ** A host to run examples on *)

(** A finite decimal expansion, at most 17 fraction digits. *)
Fixpoint fraction_digits (fuel : nat) (r d : Z) : string :=
  match fuel with
  | O => ""
  | S fuel' =>
      if r =? 0 then ""
      else pretty (10 * r / d) +:+ fraction_digits fuel' (10 * r mod d) d
  end.

Definition show_decimal (q : Q) : string :=
  let n := Z.abs (Qnum q) in
  let d := Zpos (Qden q) in
  (if Qnegative q then "-" else "") +:+ pretty (n / d) +:+
  (if n mod d =? 0 then "" else "." +:+ fraction_digits 17 (n mod d) d).

(** A rational stand-in for the sine (Bhaskara's formula on [0, 180]
    degrees, extended by symmetry), the argument in radians with pi taken
    as 355/113. *)
Definition sine_approx (x : Q) : Q :=
  let pi := (355 # 113)%Q in
  let turns := Qfloor (x / (2 * pi)) in
  let r := (x - inject_Z turns * (2 * pi))%Q in
  let half (y : Q) : Q := ((16 * y * (pi - y)) / (5 * pi * pi - 4 * y * (pi - y)))%Q in
  if Qle_bool r pi then half r else (- half (r - pi))%Q.

(** [parseFloat] on the values that are, or print as, plain decimal
    numbers. *)
Definition parseFloat_plain (v : option json) : number :=
  match v with
  | Some (JNum n) => n
  | Some (JStr s) => StringToNumber s
  | _ => NaN
  end.

(** A host whose clock is in the zone [tz] (minutes east of UTC, fixed)
    and whose [Date.parse] reads the date-only ISO form. *)
Definition host (tz : Z) : runtime :=
  Runtime show_decimal parse_date_only (fun _ => tz * 60000) sine_approx
          parseFloat_plain "2024-01-01T00:00:00.000Z".

(** ** Vocabulary of the statements *)

(** The text [{"error":"msg"}]. *)
Definition error_text (msg : string) : string :=
  "{" +:+ dquote +:+ "error" +:+ dquote +:+ ":" +:+ dquote +:+ msg +:+ dquote +:+ "}".


(** Header names compare without regard to case. *)
Definition lookup_header (name : string) (hs : list (string * string)) : option string :=
  snd <$> find (fun h => String.eqb (to_lower (fst h)) (to_lower name)) hs.

Definition proxy_routes : list string :=
  ["/soil"; "/rain-history"; "/geocode"; "/weather"].

(** The path of an event as the adapter reads it (line 165). *)
Definition route_of (ev : event) : string :=
  replace_first "/.netlify/functions/api" "" (path ev).

(** A SoilGrids reply by its content: the layers in order, each with its
    name and, per depth, the mean when there is one. *)
Record soil_layer := SoilLayer {
  layer_name : string;
  depth_means : list (option number)
}.

Definition encode_depth (mean : option number) : json :=
  JObj [("values", JObj (match mean with
                         | Some x => [("mean", JNum x)]
                         | None => []
                         end))].

Definition encode_layer (l : soil_layer) : json :=
  JObj [("name", JStr (layer_name l)); ("depths", JArr (map encode_depth (depth_means l)))].

Definition soilgrids_response (layers : list soil_layer) : json :=
  JObj [("properties", JObj [("layers", JArr (map encode_layer layers))])].

(** The mean at the first depth of the first layer of that name. *)
Definition first_depth_mean (name : string) (layers : list soil_layer) : option number :=
  match find (fun l => String.eqb (layer_name l) name) layers with
  | Some l => match depth_means l with
              | m :: _ => m
              | [] => None
              end
  | None => None
  end.

(** A soil field as the handler computes it: the mean rounded to two
    decimals, or the default when there is no mean or the rounded mean is
    zero or NaN. *)
Definition soil_field (mean : option number) (d : number) : number :=
  match mean with
  | Some m => if num_truthy (toFixed 2 m) then toFixed 2 m else d
  | None => d
  end.

(** A soil field as C6 states it: the rounded mean whenever there is one,
    zero included. *)
Definition soil_field_claimed (mean : option number) (d : number) : number :=
  match mean with
  | Some m => toFixed 2 m
  | None => d
  end.

(** An archive reply by its content: the days and the precipitation sums. *)
Definition archive_response (time precipitation_sum : list json) : json :=
  JObj [("daily", JObj [("time", JArr time); ("precipitation_sum", JArr precipitation_sum)])].

(** The array the rain handler sends for twelve monthly values. *)
Definition rain_entries (monthly : list number) : json :=
  JArr (zip_with (fun name x => JObj [("month", JStr name); ("rainfall", JNum x)])
                 monthNames monthly).


(** The value of a member of the object a handler sent, as a number. *)
Definition member (k : string) (v : json) : number :=
  match get_prop v k with
  | Some (JNum n) => n
  | _ => NaN
  end.



(** A value [Number] and [new Date] convert without throwing. *)
Definition convertible (v : json) : Prop := ToPrimitive_throws v = false.



(** C6 as stated, on the object sent for a SoilGrids reply. *)
Definition soil_claim (layers : list soil_layer) (out : json) : Prop :=
  member "ph" out = soil_field_claimed (first_depth_mean "phh2o" layers) (fin 6.5) /\
  member "nitrogen" out = soil_field_claimed (first_depth_mean "nitrogen" layers) (fin 0.15) /\
  member "organic_matter" out =
    num_mul (soil_field_claimed (first_depth_mean "soc" layers) (fin 1.5)) (fin 1.724) /\
  get_prop out "source" = Some (JStr "soilgrids").

(** The precipitation of the days, from index [i] on, that the host places
    in month [m], in the order of the array; a day whose date does not
    parse is left out. *)
Fixpoint month_values (rt : runtime) (time : option json) (m : nat) (i : nat)
    (days : list json) : list number :=
  match days with
  | [] => []
  | val :: rest =>
      match at_index time i ≫= new_Date rt, precipitation val with
      | Normal (Some t), Normal p =>
          if decide (Z.to_nat (getMonth rt t) = m)
          then p :: month_values rt time m (S i) rest
          else month_values rt time m (S i) rest
      | _, _ => month_values rt time m (S i) rest
      end
  end.

(** ** Events and environments of the examples *)

Definition coordinates : gmap string string :=
  <["lat" := "10"]> (<["lon" := "20"]> ∅).

Definition soil_event : event :=
  Event "/.netlify/functions/api/soil" "GET" (Some coordinates) None.

Definition options_event : event :=
  Event "/.netlify/functions/api/weather" "OPTIONS" None None.

(** Every outbound call fails. *)
Definition offline : env :=
  Env (fun _ => FetchRejected (Error "fetch failed")) None.

(** Every outbound call is answered with status 503. *)
Definition unavailable : env :=
  Env (fun _ => FetchResponse 503 (Malformed (Error "Unexpected end of JSON input"))) None.

(** Every outbound call is answered with status 200 and this document. *)
Definition replying (j : json) : env :=
  Env (fun _ => FetchResponse 200 (Parsed j)) None.

(** A reply with the three layers. *)
Definition three_layers : list soil_layer :=
  [SoilLayer "phh2o" [Some (Fin 6.456); Some (Fin 7)];
   SoilLayer "soc" [Some (Fin 2)];
   SoilLayer "nitrogen" [None]].



(** A reply whose pH mean is zero. *)
Definition zero_ph : list soil_layer := [SoilLayer "phh2o" [Some (Fin 0)]].

(** The daily series of C5. *)
Definition january_series : json :=
  archive_response [JStr "2023-01-01"; JStr "2023-01-15"] [JNum (Fin 5); JNum (Fin 3)].

(** ** Vocabulary of the further properties *)

Definition is_res_json (e : effect) : bool :=
  match e with
  | ResJson _ => true
  | _ => false
  end.

Definition is_res_status (e : effect) : bool :=
  match e with
  | ResStatus _ => true
  | _ => false
  end.

(** How many times a run calls [res.json]. *)
Definition answers_sent (l : list effect) : nat := length (filter is_res_json l).

(** A run on Express's response that ends normally, has sent exactly one
    answer, with a status among [codes], after at most one outbound call,
    and none when the status is 400. *)
Definition well_answered (codes : list Z) (run : M unit) : Prop :=
  snd run = Normal () /\
  answers_sent (fst run) = 1%nat /\
  (length (fetches (fst run)) <= 1)%nat /\
  exists code data,
    express_sent (fst run) = Some (code, data) /\
    code ∈ codes /\
    (code = 400 -> fetches (fst run) = []).

(** A run that throws on the way to [.json] and sends nothing. *)
Definition undelivered (run : M unit) : Prop :=
  snd run = Thrown (cannot_read "undefined" "json") /\
  answers_sent (fst run) = 0%nat.

(** An outbound call that fails: the fetch is rejected, the status is not
    a success, or the body is not JSON. *)
Definition upstream_down (e : env) (u : upstream) : Prop :=
  match fetch e u with
  | FetchRejected _ => True
  | FetchResponse status body => ok status = false \/ exists err, body = Malformed err
  end.

(** A current-weather reply by its content; [more] are the weather
    conditions after the first. *)
Definition openweather_response (temp humidity description speed name : json)
    (more : list json) : json :=
  JObj [("main", JObj [("temp", temp); ("humidity", humidity)]);
        ("weather", JArr (JObj [("description", description)] :: more));
        ("wind", JObj [("speed", speed)]);
        ("name", name)].

(** A SoilGrids reply whose first layer is the pH layer, with the mean of
    its first depth given as it stands in the document. *)
Definition soilgrids_with_ph_mean (mean : json) (depths layers : list json) : json :=
  JObj [("properties",
         JObj [("layers",
                JArr (JObj [("name", JStr "phh2o");
                            ("depths", JArr (JObj [("values", JObj [("mean", mean)])]
                                             :: depths))]
                      :: layers))])].

Definition is_number (v : json) : bool :=
  match v with
  | JNum _ => true
  | _ => false
  end.

(** The reading sent when the reply names no layer. *)
Definition soil_defaults : json :=
  JObj [("ph", JNum (fin 6.5));
        ("nitrogen", JNum (fin 0.15));
        ("organic_matter", JNum (num_mul (fin 1.5) (fin 1.724)));
        ("source", JStr "soilgrids")].

(** A handler behaves on the adapter's response object as on Express's as
    long as it sets no status; a run that sets one delivers nothing. *)
Definition stub_faithful (h : response_object -> M unit) : Prop :=
  if existsb is_res_status (fst (h express_res))
  then undelivered (h stub_res)
  else h stub_res = h express_res.

(** Environments of the further examples. *)
Definition offline_with_key : env :=
  Env (fun _ => FetchRejected (Error "fetch failed")) (Some "k").

Definition replying_with_key (j : json) : env :=
  Env (fun _ => FetchResponse 200 (Parsed j)) (Some "k").

Definition place : gmap string string := <["q" := "Pune"]> ∅.

Definition health_event : event :=
  Event "/.netlify/functions/api/health" "GET" None None.

Definition unknown_event : event :=
  Event "/.netlify/functions/api/nope" "GET" None None.

(** A query with coordinates and a place. *)
Definition everything : gmap string string := <["q" := "Pune"]> coordinates.


Definition clear_sky : json :=
  openweather_response (JNum (Fin 31)) (JNum (Fin 40)) (JStr "clear sky")
                       (JNum (Fin 3)) (JStr "Pune") [].

Definition sums_without_days : json :=
  JObj [("daily", JObj [("precipitation_sum", JArr [JNum (Fin 5)])])].

(** * Properties *)

(** ** The adapter *)

Section Adapter.

Variable rt : runtime.
Variable router : request -> dispatch.
Variable ev : event.

(** What the adapter does with a request for one of the four proxy
    routes, by the way the dispatch ends. *)
Lemma handler_on_proxy_route url :
  httpMethod ev ≠ "OPTIONS" ->
  route_of ev = url ->
  url ∈ proxy_routes ->
  handler rt router ev =
    match d_end (router (request_of ev url)) with
    | Quiet => Pending
    | Out (Some e) | Raise e =>
        Returned (Envelope 500 cors_headers (JSON_stringify rt (error_body (message e))))
    | Out None =>
        Rejected (cannot_read "undefined" "message")
    end.
Proof.
  intros Hm Hp Hu. unfold handler, route_of in *.
  apply String.eqb_neq in Hm. rewrite Hm, Hp.
  unfold proxy_routes in Hu.
  repeat (apply elem_of_cons in Hu as [-> | Hu]);
    [ .. | by apply elem_of_nil in Hu ];
    cbn [String.eqb Ascii.eqb Bool.eqb]; unfold await_dispatch;
    destruct (d_end _) as [ | [e|] | e ]; reflexivity.
Qed.

(** C1.  On a proxy route the adapter awaits a promise that nothing
    resolves: when the dispatch runs the route handler to completion and
    ends without an error, the adapter stays suspended and returns no
    envelope; and whatever envelope it does return on such a route has
    status 500, never the status the handler set. *)
Theorem handler_suspended_on_completed_route url :
  httpMethod ev ≠ "OPTIONS" ->
  route_of ev = url ->
  url ∈ proxy_routes ->
  (d_end (router (request_of ev url)) = Quiet -> handler rt router ev = Pending) /\
  (forall r, handler rt router ev = Returned r -> statusCode r = 500).
Proof.
  intros Hm Hp Hu. rewrite (handler_on_proxy_route url Hm Hp Hu).
  split.
  - intros ->. reflexivity.
  - intros r. destruct (d_end _) as [ | [e|] | e ]; intros H; inversion H; reflexivity.
Qed.

(** C2.  An exception that ends the dispatch of a proxy route, thrown by
    [app._router.handle] or passed to its callback, becomes an envelope
    with status 500 and body [{"error": message}]; and as long as the
    callback is not called without an error, the adapter's promise is
    never rejected. *)
Theorem handler_catches_exceptions :
  (forall url e,
     httpMethod ev ≠ "OPTIONS" ->
     route_of ev = url ->
     url ∈ proxy_routes ->
     d_end (router (request_of ev url)) = Raise e \/
     d_end (router (request_of ev url)) = Out (Some e) ->
     handler rt router ev =
       Returned (Envelope 500 cors_headers (JSON_stringify rt (error_body (message e))))) /\
  ((forall req, d_end (router req) ≠ Out None) ->
   forall e, handler rt router ev ≠ Rejected e).
Proof.
  split.
  - intros url e Hm Hp Hu Hend.
    rewrite (handler_on_proxy_route url Hm Hp Hu).
    destruct Hend as [-> | ->]; reflexivity.
  - intros Hout e. unfold handler. cbv zeta.
    repeat match goal with
           | |- context [String.eqb ?a ?b] => destruct (String.eqb a b)
           end; try discriminate;
      unfold await_dispatch;
      match goal with
      | |- context [d_end (router ?req)] =>
          specialize (Hout req); destruct (d_end (router req)) as [ | [?|] | ? ]
      end; try discriminate; congruence.
Qed.

(** C10.  Every envelope the adapter returns carries exactly the three
    CORS headers of lines 178-182, with [Access-Control-Allow-Origin: *]
    among them and no [Cache-Control] header. *)
Theorem handler_headers_without_cache_control r :
  handler rt router ev = Returned r ->
  headers r = cors_headers /\
  lookup_header "Access-Control-Allow-Origin" (headers r) = Some "*" /\
  lookup_header "Cache-Control" (headers r) = None.
Proof.
  intros H.
  assert (Hh : headers r = cors_headers).
  { unfold handler in H. repeat case_match; inversion H; reflexivity. }
  rewrite Hh. repeat split; reflexivity.
Qed.

End Adapter.

(** On the response object the adapter passes, the application's stack
    stops at its first layer: [cors()] calls [res.setHeader], which the
    object does not have. *)
Lemma app_router_handle_stub rt e req :
  app_router_handle rt stub_res e req =
  Dispatch [] (Out (Some (TypeError "res.setHeader is not a function"))).
Proof. reflexivity. Qed.

(** X20.  So the application answers every request for a proxy route
    with status 500 and the message of that TypeError. *)
Lemma handler_on_application rt e ev url :
  httpMethod ev ≠ "OPTIONS" ->
  route_of ev = url ->
  url ∈ proxy_routes ->
  handler rt (app_router_handle rt stub_res e) ev =
  Returned (Envelope 500 cors_headers (error_text "res.setHeader is not a function")).
Proof.
  intros Hm Hp Hu.
  rewrite (handler_on_proxy_route rt _ ev url Hm Hp Hu), app_router_handle_stub.
  reflexivity.
Qed.

(** On that object a handler that answers through [res.status(c).json(d)]
    throws: the missing-parameter answer of /soil sets 400, fails on
    [.json], and the handler's own [catch] fails the same way after setting
    500. *)
Lemma soil_missing_on_stub rt e (q : gmap string string) :
  present (q !! "lat") = false \/ present (q !! "lon") = false ->
  soil rt stub_res e q =
  ([ResStatus 400; ResStatus 500],
   Thrown (cannot_read "undefined" "json")).
Proof.
  intros H. unfold soil.
  replace (negb (present (q !! "lat")) || negb (present (q !! "lon"))) with true.
  - reflexivity.
  - destruct H as [-> | ->]; [reflexivity | symmetry; apply orb_true_r].
Qed.

(** ** Validation of the query *)

Section Validation.

Variable rt : runtime.
Variable e : env.
Variable q : gmap string string.




End Validation.

(** ** Arithmetic *)











(** ** The soil handler *)

Section Soil.

Variable rt : runtime.
Variable res : response_object.
Variable q : gmap string string.
Variables lat lon : string.

Hypothesis Hlat : q !! "lat" = Some lat.
Hypothesis Hlon : q !! "lon" = Some lon.
Hypothesis lat_given : lat ≠ "".
Hypothesis lon_given : lon ≠ "".

(** With both coordinates the handler is the primary path, the fallback
    behind it, and the outer [catch]. *)
Lemma soil_with_coordinates e :
  soil rt res e q =
  try_catch
    (try_catch (soil_primary e lat lon) (fun _ => res_json (soil_mock rt lat lon)))
    (fun _ => res_status_json res 500 (error_body "Soil data fetch failed")).
Proof.
  unfold soil. rewrite Hlat, Hlon. cbn [present default from_option]. unfold id.
  apply String.eqb_neq in lat_given, lon_given. rewrite lat_given, lon_given.
  reflexivity.
Qed.

(** A primary path that fails has made the outbound call and nothing
    else. *)
Lemma soil_primary_failure_effects e err :
  snd (soil_primary e lat lon) = Thrown err ->
  fst (soil_primary e lat lon) = [Fetch (SoilGrids lat lon)].
Proof.
  unfold soil_primary, do_fetch. cbn.
  destruct (fetch e (SoilGrids lat lon)) as [x | status [x | j]]; cbn; trivial;
    destruct (ok status); cbn; trivial.
  destruct (soil_project j); cbn; [discriminate | trivial].
Qed.

Lemma soil_fallback_run e err :
  snd (soil_primary e lat lon) = Thrown err ->
  soil rt res e q =
  ([Fetch (SoilGrids lat lon); ResJson (soil_mock rt lat lon)], Normal ()).
Proof.
  intros H. rewrite soil_with_coordinates.
  pose proof (soil_primary_failure_effects e err H) as Hf.
  destruct (soil_primary e lat lon) as [l c]. cbn in H, Hf. subst. reflexivity.
Qed.

(** C7.  With usable [lat] and [lon], whenever the primary path fails, for
    whatever reason, the soil handler ends normally after the one outbound
    call and sends the mock reading, which is a function of [lat] and [lon]
    alone: two runs in which the upstream fails, in the same way or not,
    are equal. *)
Theorem soil_fallback_deterministic e1 e2 err1 err2 :
  snd (soil_primary e1 lat lon) = Thrown err1 ->
  snd (soil_primary e2 lat lon) = Thrown err2 ->
  soil rt res e1 q =
    ([Fetch (SoilGrids lat lon); ResJson (soil_mock rt lat lon)], Normal ()) /\
  soil rt res e2 q = soil rt res e1 q.
Proof.
  intros H1 H2.
  rewrite (soil_fallback_run e1 err1 H1), (soil_fallback_run e2 err2 H2).
  split; reflexivity.
Qed.

End Soil.

(** *** The mock reading *)


(** When [lat * lon] is not a finite number the three values are NaN. *)
Lemma soil_mock_NaN rt lat lon :
  (forall p, num_mul (StringToNumber lat) (StringToNumber lon) ≠ Fin p) ->
  member "ph" (soil_mock rt lat lon) = NaN /\
  member "nitrogen" (soil_mock rt lat lon) = NaN /\
  member "organic_matter" (soil_mock rt lat lon) = NaN.
Proof.
  intros H.
  assert (Hh : hash rt lat lon = NaN).
  { unfold hash. destruct (num_mul (StringToNumber lat) (StringToNumber lon)) as [p | | s];
      [destruct (H p eq_refl) | reflexivity | reflexivity]. }
  change (member "ph" (soil_mock rt lat lon))
    with (num_add (fin 5.5) (num_rem (hash rt lat lon) (fin 3))).
  change (member "nitrogen" (soil_mock rt lat lon))
    with (num_add (fin 0.1) (num_div (num_rem (hash rt lat lon) (fin 20)) (fin 100))).
  change (member "organic_matter" (soil_mock rt lat lon))
    with (num_add (fin 1.0) (num_div (num_rem (hash rt lat lon) (fin 30)) (fin 10))).
  rewrite Hh. repeat split; reflexivity.
Qed.


(** *** The primary path *)

Lemma find_layer_encoded name ls :
  find_layer name (map encode_layer ls) =
  Normal (encode_layer <$> find (fun l => String.eqb (layer_name l) name) ls).
Proof.
  induction ls as [| l ls IH]; [reflexivity |].
  cbn [map find_layer find].
  change (get (Some (encode_layer l)) "name") with (Normal (Some (JStr (layer_name l)))).
  cbn [mbind completion_bind strictly_equals_string].
  destruct (String.eqb (layer_name l) name); [reflexivity | exact IH].
Qed.

Lemma firstVal_encoded l :
  firstVal (encode_layer l) =
  Normal (toFixed 2 <$> match depth_means l with m :: _ => m | [] => None end).
Proof.
  destruct l as [n [| [m |] ms]]; reflexivity.
Qed.

Lemma byName_firstVal_encoded name ls :
  byName (Some (JArr (map encode_layer ls))) name ≫= firstVal =
  Normal (toFixed 2 <$> first_depth_mean name ls).
Proof.
  unfold byName, first_depth_mean. rewrite find_layer_encoded.
  cbn [mbind completion_bind].
  destruct (find _ ls) as [l |]; cbn [fmap option_fmap option_map default from_option id].
  - apply firstVal_encoded.
  - reflexivity.
Qed.

Lemma or_default_soil_field m d : or_default (toFixed 2 <$> m) d = soil_field m d.
Proof. destruct m; reflexivity. Qed.

(** The object of lines 45-50 for a reply given by its content. *)
Lemma soil_project_encoded ls :
  soil_project (soilgrids_response ls) =
  Normal (JObj [("ph", JNum (soil_field (first_depth_mean "phh2o" ls) (fin 6.5)));
                ("nitrogen", JNum (soil_field (first_depth_mean "nitrogen" ls) (fin 0.15)));
                ("organic_matter",
                 JNum (num_mul (soil_field (first_depth_mean "soc" ls) (fin 1.5)) (fin 1.724)));
                ("source", JStr "soilgrids")]).
Proof.
  unfold soil_project.
  change (or_else (or_else (get_opt (get_opt (Some (soilgrids_response ls)) "properties") "layers")
                           (get_opt (Some (soilgrids_response ls)) "layers"))
                  (Some (JArr [])))
    with (Some (JArr (map encode_layer ls))).
  rewrite !byName_firstVal_encoded. cbn [mbind completion_bind].
  rewrite !or_default_soil_field. reflexivity.
Qed.

(** C6, as the code has it.  On the primary path (usable [lat] and [lon],
    an upstream reply with a success status) the handler sends [ph] equal
    to the first-depth mean of the [phh2o] layer rounded to two decimals
    when that mean is there and its rounded value is not zero, and 6.5 when
    the mean is absent or rounds to zero; [nitrogen] likewise with 0.15;
    [organic_matter] is the rounded [soc] mean, or 1.5 when it is absent or
    zero, times 1.724; [source] is "soilgrids". *)
Theorem soil_primary_reading rt res e (q : gmap string string) lat lon status ls :
  q !! "lat" = Some lat -> q !! "lon" = Some lon ->
  lat ≠ "" -> lon ≠ "" ->
  fetch e (SoilGrids lat lon) = FetchResponse status (Parsed (soilgrids_response ls)) ->
  ok status = true ->
  soil rt res e q =
    ([Fetch (SoilGrids lat lon);
      ResJson (JObj
        [("ph", JNum (soil_field (first_depth_mean "phh2o" ls) (fin 6.5)));
         ("nitrogen", JNum (soil_field (first_depth_mean "nitrogen" ls) (fin 0.15)));
         ("organic_matter",
          JNum (num_mul (soil_field (first_depth_mean "soc" ls) (fin 1.5)) (fin 1.724)));
         ("source", JStr "soilgrids")])],
     Normal ()).
Proof.
  intros Hlat Hlon Hla Hlo Hfetch Hok.
  rewrite (soil_with_coordinates rt res q lat lon Hlat Hlon Hla Hlo).
  unfold soil_primary, do_fetch. rewrite Hfetch.
  cbn -[soil_project soilgrids_response]. rewrite Hok.
  cbn -[soil_project soilgrids_response].
  rewrite soil_project_encoded. reflexivity.
Qed.

(** ** The rain-history handler *)

Section Rain.

Variable rt : runtime.

Lemma length_forEach_day time days : forall monthly i monthly',
  forEach_day rt time monthly i days = Normal monthly' ->
  length monthly' = length monthly.
Proof.
  induction days as [| val days IH]; intros monthly i monthly' H.
  - inversion H. reflexivity.
  - cbn [forEach_day] in H.
    destruct (add_day rt time monthly i val) as [m1 | err] eqn:E; [| discriminate H].
    cbn in H. apply IH in H. rewrite H.
    unfold add_day, mbind, completion_bind in E.
    destruct (at_index time i) as [ti |]; [| discriminate E].
    destruct (new_Date rt ti) as [[t |] |]; try discriminate E.
    + destruct (precipitation val); [| discriminate E].
      inversion E. apply length_alter.
    + inversion E. reflexivity.
Qed.

Lemma month_entries monthly :
  length monthly = 12%nat ->
  mapM (fun p => month_entry monthly (fst p) (snd p)) (imap pair monthNames) =
  Normal (zip_with (fun name x => JObj [("month", JStr name); ("rainfall", JNum x)])
                   monthNames (toFixed 1 <$> monthly)).
Proof.
  intros H.
  do 12 (destruct monthly as [| ? monthly]; [cbn in H; lia |]).
  destruct monthly; [reflexivity | cbn in H; lia].
Qed.




Lemma precipitation_convertible v :
  convertible v ->
  precipitation v =
  Normal (if num_truthy (numeric_value v) then numeric_value v else fin 0).
Proof. unfold convertible, precipitation, ToNumber. intros ->. reflexivity. Qed.

(** A missing value ([null]) and a value that is not numeric count as
    zero. *)
Lemma precipitation_zero v :
  convertible v -> numeric_value v = NaN \/ v = JNull ->
  precipitation v = Normal (fin 0).
Proof.
  intros Hv H. rewrite (precipitation_convertible v Hv).
  destruct H as [-> | ->]; reflexivity.
Qed.



(** For a reply made of a time array and a precipitation array the handler
    is the loop followed by the labelling. *)
Lemma rain_result_arrays ts ps :
  rain_result rt (archive_response ts ps) =
  (monthly ← forEach_day rt (Some (JArr ts)) (replicate 12 (fin 0)) 0 ps;
   result ← mapM (fun p => month_entry monthly (fst p) (snd p)) (imap pair monthNames);
   Normal (JArr result)).
Proof. reflexivity. Qed.


(** Each bucket of [monthly] ends up with the precipitation of the days of
    its month added to it, in the order of the array. *)
Lemma monthly_totals time days : forall monthly i monthly',
  forEach_day rt time monthly i days = Normal monthly' ->
  forall m, monthly' !! m =
            (fun x => fold_left num_add (month_values rt time m i days) x) <$> monthly !! m.
Proof.
  induction days as [| val days IH]; intros monthly i monthly' H m.
  - inversion H. cbn. destruct (monthly' !! m); reflexivity.
  - cbn [forEach_day] in H.
    destruct (add_day rt time monthly i val) as [m1 | err] eqn:E; [| discriminate H].
    cbn [mbind completion_bind] in H. rewrite (IH _ _ _ H m).
    cbn [month_values]. unfold add_day in E.
    unfold mbind, completion_bind in E |- *.
    destruct (at_index time i) as [ti |]; [| discriminate E].
    destruct (new_Date rt ti) as [[t |] |]; [| | discriminate E].
    + destruct (precipitation val) as [p |]; [| discriminate E].
      inversion E. subst m1. rewrite list_lookup_alter.
      destruct (decide (Z.to_nat (getMonth rt t) = m)) as [Heq | Hne].
      * rewrite Heq. destruct (monthly !! m); reflexivity.
      * reflexivity.
    + inversion E. subst m1. reflexivity.
Qed.

(** X19.  The value reported for a month is the rounded sum of the
    precipitation of the days the host places in that month. *)
Lemma rain_result_totals ts ps out :
  rain_result rt (archive_response ts ps) = Normal out ->
  out = rain_entries
          (map (fun m => toFixed 1 (fold_left num_add
                                      (month_values rt (Some (JArr ts)) m 0 ps) (fin 0)))
               (seq 0 12)).
Proof.
  rewrite rain_result_arrays.
  destruct (forEach_day rt _ _ 0 ps) as [monthly |] eqn:E; [| discriminate].
  pose proof (length_forEach_day _ _ _ _ _ E) as Hlen.
  rewrite length_replicate in Hlen.
  pose proof (monthly_totals _ _ _ _ _ E) as Htot.
  cbn [mbind completion_bind]. rewrite (month_entries monthly Hlen).
  cbn [mbind completion_bind]. intros H. inversion H. subst out. clear H.
  unfold rain_entries. do 2 f_equal.
  do 12 (destruct monthly as [| ? monthly]; [cbn in Hlen; lia |]).
  destruct monthly; [| cbn in Hlen; lia].
  pose proof (Htot 0%nat) as H0. pose proof (Htot 1%nat) as H1.
  pose proof (Htot 2%nat) as H2. pose proof (Htot 3%nat) as H3.
  pose proof (Htot 4%nat) as H4. pose proof (Htot 5%nat) as H5.
  pose proof (Htot 6%nat) as H6. pose proof (Htot 7%nat) as H7.
  pose proof (Htot 8%nat) as H8. pose proof (Htot 9%nat) as H9.
  pose proof (Htot 10%nat) as H10. pose proof (Htot 11%nat) as H11.
  cbn [lookup list_lookup replicate fmap option_fmap option_map] in
    H0, H1, H2, H3, H4, H5, H6, H7, H8, H9, H10, H11.
  inversion H0; inversion H1; inversion H2; inversion H3; inversion H4; inversion H5;
    inversion H6; inversion H7; inversion H8; inversion H9; inversion H10; inversion H11.
  reflexivity.
Qed.

End Rain.

(** *** The daily series of the specification *)

Lemma MonthFromTime_day t d :
  t / msPerDay = d -> MonthFromTime t = MonthFromTime (d * msPerDay).
Proof.
  intros H. unfold MonthFromTime. rewrite H, Z.div_mul by discriminate. reflexivity.
Qed.

(** When the host places both days in January, January holds 8 and every
    other month 0. *)
Lemma january_series_in_january rt t1 t2 :
  Date_parse rt "2023-01-01" = Some t1 ->
  Date_parse rt "2023-01-15" = Some t2 ->
  getMonth rt t1 = 0 -> getMonth rt t2 = 0 ->
  rain_result rt january_series =
  Normal (rain_entries (Fin 8 :: replicate 11 (Fin 0))).
Proof.
  intros H1 H2 M1 M2.
  unfold january_series. rewrite rain_result_arrays.
  cbn [forEach_day add_day at_index get_index lookup list_lookup
       mbind completion_bind new_Date ToPrimitive_throws].
  rewrite H1, H2, M1, M2. vm_compute. reflexivity.
Qed.

(** On a host whose clock is at or east of UTC the series gives 8 for
    January and 0 for the other months. *)
Lemma january_series_east_of_UTC tz :
  0 <= tz <= 840 ->
  rain_result (host tz) january_series =
  Normal (rain_entries (Fin 8 :: replicate 11 (Fin 0))).
Proof.
  intros Htz.
  apply (january_series_in_january (host tz) 1672531200000 1673740800000);
    try reflexivity.
  - unfold getMonth, host, LocalTZA.
    rewrite (MonthFromTime_day _ 19358); [reflexivity |].
    unfold msPerDay. symmetry. apply (Z.div_unique_pos _ _ _ (tz * 60000)); lia.
  - unfold getMonth, host, LocalTZA.
    rewrite (MonthFromTime_day _ 19372); [reflexivity |].
    unfold msPerDay. symmetry. apply (Z.div_unique_pos _ _ _ (tz * 60000)); lia.
Qed.

(** C5.  On a host five hours west of UTC the first of January, parsed as
    UTC midnight and read in local time, falls in December: for the series
    of the specification the handler reports 3 for January and 5 for
    December. *)
Theorem january_series_west_of_UTC :
  rain_result (host (-300)) january_series =
  Normal (rain_entries ([Fin 3] ++ replicate 10 (Fin 0) ++ [Fin 5])).
Proof. vm_compute. reflexivity. Qed.

(** * Instances and counterexamples *)

Lemma handler_suspended_witness :
  d_end (route_layer (host 0) stub_res offline (request_of soil_event "/soil")) = Quiet /\
  handler (host 0) (route_layer (host 0) stub_res offline) soil_event = Pending.
Proof.
  split; [reflexivity |].
  apply (handler_suspended_on_completed_route
           (host 0) (route_layer (host 0) stub_res offline) soil_event "/soil").
  - discriminate.
  - reflexivity.
  - apply list_elem_of_here.
  - reflexivity.
Defined.

Lemma handler_catches_witness :
  handler (host 0) (app_router_handle (host 0) stub_res offline) soil_event =
    Returned (Envelope 500 cors_headers (error_text "res.setHeader is not a function")) /\
  forall e, handler (host 0) (app_router_handle (host 0) stub_res offline) soil_event
            ≠ Rejected e.
Proof.
  split.
  - apply (proj1 (handler_catches_exceptions
                    (host 0) (app_router_handle (host 0) stub_res offline) soil_event)
                 "/soil" (TypeError "res.setHeader is not a function")).
    + discriminate.
    + reflexivity.
    + apply list_elem_of_here.
    + right. reflexivity.
  - apply (proj2 (handler_catches_exceptions
                    (host 0) (app_router_handle (host 0) stub_res offline) soil_event)).
    intros req. cbn. discriminate.
Defined.

Lemma handler_headers_witness :
  handler (host 0) (app_router_handle (host 0) stub_res offline) options_event =
    Returned (Envelope 200 cors_headers "") /\
  lookup_header "Cache-Control" (headers (Envelope 200 cors_headers "")) = None.
Proof.
  split; [reflexivity |].
  apply (handler_headers_without_cache_control
           (host 0) (app_router_handle (host 0) stub_res offline) options_event).
  reflexivity.
Defined.



Lemma soil_fallback_witness :
  soil (host 0) stub_res offline coordinates =
    ([Fetch (SoilGrids "10" "20"); ResJson (soil_mock (host 0) "10" "20")], Normal ()) /\
  soil (host 0) stub_res unavailable coordinates = soil (host 0) stub_res offline coordinates.
Proof.
  apply (soil_fallback_deterministic (host 0) stub_res coordinates "10" "20"
           eq_refl eq_refl ltac:(discriminate) ltac:(discriminate)
           offline unavailable (Error "fetch failed") (Error "SoilGrids error 503")).
  - reflexivity.
  - reflexivity.
Defined.



Lemma soil_primary_reading_witness :
  soil (host 0) express_res (replying (soilgrids_response three_layers)) coordinates =
    ([Fetch (SoilGrids "10" "20");
      ResJson (JObj [("ph", JNum (Fin (323 # 50)));
                     ("nitrogen", JNum (Fin (3 # 20)));
                     ("organic_matter", JNum (Fin (431 # 125)));
                     ("source", JStr "soilgrids")])],
     Normal ()).
Proof.
  apply (soil_primary_reading (host 0) express_res
           (replying (soilgrids_response three_layers))
           coordinates "10" "20" 200 three_layers).
  - reflexivity.
  - reflexivity.
  - discriminate.
  - discriminate.
  - reflexivity.
  - reflexivity.
Defined.

(** C6 as stated fails: a pH mean of 0 is present, yet the handler sends
    6.5. *)
Lemma soil_zero_mean_defaulted :
  exists out,
    soil (host 0) express_res (replying (soilgrids_response zero_ph)) coordinates =
      ([Fetch (SoilGrids "10" "20"); ResJson out], Normal ()) /\
    first_depth_mean "phh2o" zero_ph = Some (Fin 0) /\
    member "ph" out = Fin (13 # 2) /\
    ~ soil_claim zero_ph out.
Proof.
  eexists. split; [reflexivity |]. split; [reflexivity |]. split; [reflexivity |].
  intros [H _]. discriminate H.
Qed.



(** * Further properties *)

(** Membership in a literal list. *)
Ltac in_list := repeat first [apply list_elem_of_here | apply list_elem_of_further].

(** ** The path of an event *)

Lemma append_cons c a b : String c a +:+ b = String c (a +:+ b).
Proof. reflexivity. Qed.

Lemma append_nil a : "" +:+ a = a.
Proof. reflexivity. Qed.

Lemma substring_none s : String.substring 0 0 s = "".
Proof. destruct s; reflexivity. Qed.

Lemma prefix_append a b : String.prefix a (a +:+ b) = true.
Proof.
  induction a as [| c a IH]; [destruct b; reflexivity |].
  rewrite append_cons. cbn. destruct (Ascii.ascii_dec c c); [exact IH | contradiction].
Qed.

Lemma substring_whole s : String.substring 0 (String.length s) s = s.
Proof. induction s as [| c s IH]; [reflexivity |]. cbn. rewrite IH. reflexivity. Qed.

Lemma substring_after a b :
  String.substring (String.length a) (String.length (a +:+ b) - String.length a) (a +:+ b) = b.
Proof.
  induction a as [| c a IH].
  - cbn. rewrite Nat.sub_0_r. apply substring_whole.
  - rewrite append_cons. cbn. exact IH.
Qed.

(** Removing a non-empty pattern from the head of a string leaves the
    rest. *)
Lemma replace_first_prefix a b :
  a ≠ "" -> replace_first a "" (a +:+ b) = b.
Proof.
  intros Ha. unfold replace_first.
  assert (Hi : String.index 0 a (a +:+ b) = Some 0%nat).
  { destruct a as [| c a]; [contradiction |].
    rewrite append_cons. cbn [String.index]. rewrite <- append_cons.
    rewrite prefix_append. reflexivity. }
  rewrite Hi, substring_none. change (0 + String.length a)%nat with (String.length a).
  rewrite !append_nil. apply substring_after.
Qed.

(** ** The adapter *)

Section AdapterFurther.

Variable rt : runtime.
Variable router : request -> dispatch.

(** X1.  What the adapter answers by itself, whatever the router would
    do: an OPTIONS request gets 200 with an empty body on any path; any
    other request for /health gets 200 with the status and the time; and
    one for a path that is none of the five routes gets 404
    [{"error":"Not found"}]. *)
Theorem handler_local_answers ev :
  (httpMethod ev = "OPTIONS" ->
   handler rt router ev = Returned (Envelope 200 cors_headers "")) /\
  (httpMethod ev ≠ "OPTIONS" -> route_of ev = "/health" ->
   handler rt router ev =
   Returned (Envelope 200 cors_headers
               (JSON_stringify rt (JObj [("status", JStr "ok");
                                         ("timestamp", JStr (now_ISO rt))])))) /\
  (httpMethod ev ≠ "OPTIONS" -> route_of ev ∉ "/health" :: proxy_routes ->
   handler rt router ev = Returned (Envelope 404 cors_headers (error_text "Not found"))).
Proof.
  unfold handler. cbv zeta. fold (route_of ev).
  repeat split.
  - intros ->. reflexivity.
  - intros Hm ->. apply String.eqb_neq in Hm. rewrite Hm. reflexivity.
  - intros Hm Hr. apply String.eqb_neq in Hm. rewrite Hm.
    unfold proxy_routes in Hr.
    repeat match goal with
           | |- context [String.eqb (route_of ev) ?s] =>
               destruct (String.eqb_spec (route_of ev) s) as [E | _];
               [exfalso; apply Hr; rewrite E; in_list |]
           end.
    reflexivity.
Qed.

(** X2.  The adapter returns no status other than 200, 404 and 500: 200
    only for OPTIONS and for /health, 404 only for a path that is none of
    the five routes, 500 only on one of the four proxy routes. *)
Theorem handler_statuses ev r :
  handler rt router ev = Returned r ->
  (statusCode r = 200 /\ (httpMethod ev = "OPTIONS" \/ route_of ev = "/health")) \/
  (statusCode r = 404 /\ httpMethod ev ≠ "OPTIONS" /\
   route_of ev ∉ "/health" :: proxy_routes) \/
  (statusCode r = 500 /\ httpMethod ev ≠ "OPTIONS" /\ route_of ev ∈ proxy_routes).
Proof.
  unfold handler. cbv zeta. fold (route_of ev).
  destruct (String.eqb_spec (httpMethod ev) "OPTIONS") as [Hm | Hm].
  { intros H. inversion H. left. split; [reflexivity | left; exact Hm]. }
  destruct (String.eqb_spec (route_of ev) "/health") as [Hh | Hh].
  { intros H. inversion H. left. split; [reflexivity | right; exact Hh]. }
  unfold proxy_routes.
  destruct (String.eqb_spec (route_of ev) "/soil") as [E1 | E1];
    [| destruct (String.eqb_spec (route_of ev) "/rain-history") as [E2 | E2];
       [| destruct (String.eqb_spec (route_of ev) "/geocode") as [E3 | E3];
          [| destruct (String.eqb_spec (route_of ev) "/weather") as [E4 | E4]]]].
  5: { intros H. inversion H. right. left. repeat split; [exact Hm |].
       rewrite !elem_of_cons, elem_of_nil. intuition. }
  all: unfold await_dispatch; destruct (d_end _) as [| [e |] | e];
    intros H; inversion H; right; right;
    (repeat split; [exact Hm |]);
    match goal with E : route_of _ = _ |- _ => rewrite E end; in_list.
Qed.

(** X3.  A path is routed by what follows the functions prefix: an event
    whose path is the prefix followed by [p] is treated exactly as the
    event whose path is [p] alone, when [p] does not itself contain the
    prefix. *)
Theorem handler_prefix_irrelevant p m q h :
  String.index 0 "/.netlify/functions/api" p = None ->
  handler rt router (Event ("/.netlify/functions/api" +:+ p) m q h) =
  handler rt router (Event p m q h).
Proof.
  intros Hp.
  assert (H1 : replace_first "/.netlify/functions/api" ""
                 ("/.netlify/functions/api" +:+ p) = p).
  { apply replace_first_prefix. discriminate. }
  assert (H2 : replace_first "/.netlify/functions/api" "" p = p).
  { unfold replace_first. rewrite Hp. reflexivity. }
  unfold handler, request_of.
  cbn [path httpMethod queryStringParameters event_headers].
  rewrite H1, H2. reflexivity.
Qed.

End AdapterFurther.

(** ** Every handler answers *)

Ltac simp :=
  cbn -[get at_index get_opt get_prop object_of soil_project soil_mock rain_result
        truthy length_is_zero pretty error_body].

Ltac answered :=
  simp;
  split; [reflexivity |];
  split; [reflexivity |];
  split; [simp; lia |];
  eexists _, _; split; [reflexivity |];
  split; [in_list | first [reflexivity | intros H; discriminate H]].

Section Answers.

Variable rt : runtime.
Variable e : env.
Variable q : gmap string string.


(** X5.  On Express's response the rain handler always ends normally with
    exactly one answer, 400 without any outbound call, or 200 or 500 after
    one. *)
Theorem rain_history_well_answered :
  well_answered [200; 400; 500] (rain_history rt express_res e q).
Proof.
  unfold well_answered, rain_history.
  destruct (negb (present (q !! "lat")) || negb (present (q !! "lon"))); [answered |].
  generalize (default "" (q !! "lat")) (default "" (q !! "lon")). intros lat lon.
  unfold do_fetch.
  destruct (fetch e (OpenMeteoArchive lat lon)) as [err | status [err | data]];
    simp; try (destruct (ok status)); try answered.
  simp. destruct (rain_result rt data); answered.
Qed.

(** X6.  On Express's response the geocode handler always ends normally
    with exactly one answer, 400 without any outbound call, or 200, 404 or
    500 after one. *)
Theorem geocode_well_answered :
  well_answered [200; 400; 404; 500] (geocode rt express_res e q).
Proof.
  unfold well_answered, geocode.
  destruct (negb (present (q !! "q"))); [answered |].
  generalize (default "" (q !! "q")). intros place.
  unfold do_fetch.
  destruct (fetch e (Nominatim place)) as [err | status [err | data]];
    simp; try (destruct (ok status)); try answered.
  simp. destruct (negb (truthy (Some data)) || length_is_zero data); [answered |].
  simp. destruct (at_index (Some data) 0) as [first | err]; [| answered].
  simp. destruct (get first "lat") as [lat | err]; answered.
Qed.

(** X7.  On Express's response the weather handler always ends normally
    with exactly one answer, 400 without any outbound call, or 200 or 500
    after at most one. *)
Theorem weather_well_answered :
  well_answered [200; 400; 500] (weather express_res e q).
Proof.
  unfold well_answered, weather.
  destruct (negb (present (q !! "lat")) || negb (present (q !! "lon"))); [answered |].
  destruct (negb (present (API_KEY e))); [answered |].
  generalize (default "" (q !! "lat")) (default "" (q !! "lon")) (default "" (API_KEY e)).
  intros lat lon key.
  unfold do_fetch.
  destruct (fetch e (OpenWeather lat lon key)) as [err | status [err | data]];
    simp; try (destruct (ok status)); try answered.
  simp. destruct (get (Some data) "main") as [main | err]; [| answered].
  simp. destruct (get main "temp") as [temp | err]; [| answered].
  simp. destruct (get main "humidity") as [humidity | err]; [| answered].
  simp. destruct (get (Some data) "weather") as [conditions | err]; [| answered].
  simp. destruct (at_index conditions 0) as [condition | err]; [| answered].
  simp. destruct (get condition "description") as [description | err]; [| answered].
  simp. destruct (get (Some data) "wind") as [wind | err]; [| answered].
  simp. destruct (get wind "speed") as [speed | err]; answered.
Qed.

End Answers.

(** ** The handlers on the adapter's response object *)

Ltac stubbed := simp; first [reflexivity | split; reflexivity].

Section OnStub.

Variable rt : runtime.
Variable e : env.
Variable q : gmap string string.

(** X8.  On the response object the adapter passes, whose [status]
    returns undefined, a handler run that sets no status (a 200 answer) is
    the same as on Express's response, and a run that sets a status (400,
    404 or 500) throws on [.json] and delivers no answer at all. *)
Theorem handlers_on_stub :
  stub_faithful (fun res => soil rt res e q) /\
  stub_faithful (fun res => rain_history rt res e q) /\
  stub_faithful (fun res => geocode rt res e q) /\
  stub_faithful (fun res => weather res e q).
Proof.
  unfold stub_faithful, undelivered. repeat split.
  - unfold soil.
    destruct (negb (present (q !! "lat")) || negb (present (q !! "lon"))); [stubbed |].
    generalize (default "" (q !! "lat")) (default "" (q !! "lon")). intros lat lon.
    unfold soil_primary, do_fetch.
    destruct (fetch e (SoilGrids lat lon)) as [err | status [err | j]];
      simp; try (destruct (ok status)); try stubbed.
    simp. destruct (soil_project j); stubbed.
  - unfold rain_history.
    destruct (negb (present (q !! "lat")) || negb (present (q !! "lon"))); [stubbed |].
    generalize (default "" (q !! "lat")) (default "" (q !! "lon")). intros lat lon.
    unfold do_fetch.
    destruct (fetch e (OpenMeteoArchive lat lon)) as [err | status [err | data]];
      simp; try (destruct (ok status)); try stubbed.
    simp. destruct (rain_result rt data); stubbed.
  - unfold geocode.
    destruct (negb (present (q !! "q"))); [stubbed |].
    generalize (default "" (q !! "q")). intros place.
    unfold do_fetch.
    destruct (fetch e (Nominatim place)) as [err | status [err | data]];
      simp; try (destruct (ok status)); try stubbed.
    simp. destruct (negb (truthy (Some data)) || length_is_zero data); [stubbed |].
    simp. destruct (at_index (Some data) 0) as [first | err]; [| stubbed].
    simp. destruct (get first "lat") as [lat | err]; stubbed.
  - unfold weather.
    destruct (negb (present (q !! "lat")) || negb (present (q !! "lon"))); [stubbed |].
    destruct (negb (present (API_KEY e))); [stubbed |].
    generalize (default "" (q !! "lat")) (default "" (q !! "lon")) (default "" (API_KEY e)).
    intros lat lon key.
    unfold do_fetch.
    destruct (fetch e (OpenWeather lat lon key)) as [err | status [err | data]];
      simp; try (destruct (ok status)); try stubbed.
    simp. destruct (get (Some data) "main") as [main | err]; [| stubbed].
    simp. destruct (get main "temp") as [temp | err]; [| stubbed].
    simp. destruct (get main "humidity") as [humidity | err]; [| stubbed].
    simp. destruct (get (Some data) "weather") as [conditions | err]; [| stubbed].
    simp. destruct (at_index conditions 0) as [condition | err]; [| stubbed].
    simp. destruct (get condition "description") as [description | err]; [| stubbed].
    simp. destruct (get (Some data) "wind") as [wind | err]; [| stubbed].
    simp. destruct (get wind "speed") as [speed | err]; stubbed.
Qed.

End OnStub.

(** ** Upstream failures and empty replies *)

Section Upstream.

Variable rt : runtime.
Variable e : env.
Variable q : gmap string string.

(** X9.  When the outbound call fails (the fetch is rejected, the status
    is not a success, or the body is not JSON) the rain, geocode and weather
    handlers answer 500 with their own message, after that one call. *)
Theorem upstream_failure_500 :
  (forall lat lon,
     q !! "lat" = Some lat -> q !! "lon" = Some lon -> lat ≠ "" -> lon ≠ "" ->
     upstream_down e (OpenMeteoArchive lat lon) ->
     rain_history rt express_res e q =
     ([Fetch (OpenMeteoArchive lat lon); ResStatus 500;
       ResJson (error_body "Rain history fetch failed")], Normal ())) /\
  (forall place,
     q !! "q" = Some place -> place ≠ "" ->
     upstream_down e (Nominatim place) ->
     geocode rt express_res e q =
     ([Fetch (Nominatim place); ResStatus 500;
       ResJson (error_body "Geocoding failed")], Normal ())) /\
  (forall lat lon key,
     q !! "lat" = Some lat -> q !! "lon" = Some lon -> lat ≠ "" -> lon ≠ "" ->
     API_KEY e = Some key -> key ≠ "" ->
     upstream_down e (OpenWeather lat lon key) ->
     weather express_res e q =
     ([Fetch (OpenWeather lat lon key); ResStatus 500;
       ResJson (error_body "Weather data fetch failed")], Normal ())).
Proof.
  unfold upstream_down. repeat split.
  - intros lat lon Hlat Hlon Hla Hlo Hdown.
    unfold rain_history. rewrite Hlat, Hlon. cbn [present default from_option]. unfold id.
    apply String.eqb_neq in Hla, Hlo. rewrite Hla, Hlo. unfold do_fetch.
    destruct (fetch e (OpenMeteoArchive lat lon)) as [err | status body]; [reflexivity |].
    destruct Hdown as [Hok | [err ->]]; simp;
      [rewrite Hok | destruct (ok status)]; reflexivity.
  - intros place Hq Hp Hdown.
    unfold geocode. rewrite Hq. cbn [present default from_option]. unfold id.
    apply String.eqb_neq in Hp. rewrite Hp. unfold do_fetch.
    destruct (fetch e (Nominatim place)) as [err | status body]; [reflexivity |].
    destruct Hdown as [Hok | [err ->]]; simp;
      [rewrite Hok | destruct (ok status)]; reflexivity.
  - intros lat lon key Hlat Hlon Hla Hlo Hkey Hk Hdown.
    unfold weather. rewrite Hlat, Hlon, Hkey. cbn [present default from_option]. unfold id.
    apply String.eqb_neq in Hla, Hlo, Hk. rewrite Hla, Hlo, Hk. unfold do_fetch.
    destruct (fetch e (OpenWeather lat lon key)) as [err | status body]; [reflexivity |].
    destruct Hdown as [Hok | [err ->]]; simp;
      [rewrite Hok | destruct (ok status)]; reflexivity.
Qed.


(** X10.  A geocoder reply that is empty (an empty array, or a falsy value
    such as [null]) is answered 404 [{"error":"Location not found"}]. *)
Theorem geocode_no_match place status data :
  q !! "q" = Some place -> place ≠ "" ->
  fetch e (Nominatim place) = FetchResponse status (Parsed data) -> ok status = true ->
  truthy (Some data) = false \/ data = JArr [] ->
  geocode rt express_res e q =
  ([Fetch (Nominatim place); ResStatus 404;
    ResJson (error_body "Location not found")], Normal ()).
Proof.
  intros Hq Hp Hfetch Hok Hempty.
  unfold geocode. rewrite Hq. cbn [present default from_option]. unfold id.
  apply String.eqb_neq in Hp. rewrite Hp. unfold do_fetch. rewrite Hfetch.
  simp. rewrite Hok. simp.
  replace (negb (truthy (Some data)) || length_is_zero data) with true;
    [reflexivity |].
  destruct Hempty as [-> | ->]; reflexivity.
Qed.


(** X12.  For a current-weather reply with its main block, its weather
    conditions and its wind, the answer is the temperature, the humidity,
    the description of the first condition only, the wind speed and the
    place name. *)
Theorem weather_reading lat lon key status temp humidity description speed name more :
  q !! "lat" = Some lat -> q !! "lon" = Some lon -> lat ≠ "" -> lon ≠ "" ->
  API_KEY e = Some key -> key ≠ "" ->
  fetch e (OpenWeather lat lon key) =
    FetchResponse status
      (Parsed (openweather_response temp humidity description speed name more)) ->
  ok status = true ->
  weather express_res e q =
  ([Fetch (OpenWeather lat lon key);
    ResJson (JObj [("temperature", temp); ("humidity", humidity);
                   ("description", description); ("wind_speed", speed);
                   ("location", name)])],
   Normal ()).
Proof.
  intros Hlat Hlon Hla Hlo Hkey Hk Hfetch Hok.
  unfold weather. rewrite Hlat, Hlon, Hkey. cbn [present default from_option]. unfold id.
  apply String.eqb_neq in Hla, Hlo, Hk. rewrite Hla, Hlo, Hk. unfold do_fetch.
  rewrite Hfetch. simp. rewrite Hok. reflexivity.
Qed.

(** X13.  A current-weather reply without a main block (or a [null]
    reply) is answered 500 [{"error":"Weather data fetch failed"}]. *)
Theorem weather_without_main lat lon key status data :
  q !! "lat" = Some lat -> q !! "lon" = Some lon -> lat ≠ "" -> lon ≠ "" ->
  API_KEY e = Some key -> key ≠ "" ->
  fetch e (OpenWeather lat lon key) = FetchResponse status (Parsed data) ->
  ok status = true ->
  get_opt (Some data) "main" = None \/ get_opt (Some data) "main" = Some JNull ->
  weather express_res e q =
  ([Fetch (OpenWeather lat lon key); ResStatus 500;
    ResJson (error_body "Weather data fetch failed")], Normal ()).
Proof.
  intros Hlat Hlon Hla Hlo Hkey Hk Hfetch Hok Hmain.
  unfold weather. rewrite Hlat, Hlon, Hkey. cbn [present default from_option]. unfold id.
  apply String.eqb_neq in Hla, Hlo, Hk. rewrite Hla, Hlo, Hk. unfold do_fetch.
  rewrite Hfetch. simp. rewrite Hok. simp.
  assert (Hget : get (Some data) "main" = Thrown (cannot_read "null" "main") \/
                 get (Some data) "main" = Normal None \/
                 get (Some data) "main" = Normal (Some JNull)).
  { destruct data; cbn in Hmain |- *; auto;
      destruct Hmain as [-> | ->]; auto. }
  destruct Hget as [-> | [-> | ->]]; reflexivity.
Qed.

End Upstream.

(** ** Replies of unexpected shape *)

(** X14.  A SoilGrids reply that names no layers (neither under
    [properties] nor at the top) gives the default reading 6.5, 0.15 and
    1.5 * 1.724; and layers given at the top of the reply are read as those
    given under [properties]. *)
Theorem soil_project_layers :
  (forall j,
     truthy (get_opt (get_opt (Some j) "properties") "layers") = false ->
     truthy (get_opt (Some j) "layers") = false ->
     soil_project j = Normal soil_defaults) /\
  (forall ls,
     soil_project (JObj [("layers", JArr (map encode_layer ls))]) =
     soil_project (soilgrids_response ls)).
Proof.
  split.
  - intros j H1 H2. unfold soil_project, or_else. rewrite H1, H2. reflexivity.
  - intros ls. reflexivity.
Qed.

(** X15.  When the pH mean of the reply is there but is not a number
    ([null], a string, ...), rounding it throws, and the handler sends the
    mock reading instead of a default. *)
Theorem soil_unreadable_mean rt res e (q : gmap string string) lat lon status mean depths layers :
  q !! "lat" = Some lat -> q !! "lon" = Some lon -> lat ≠ "" -> lon ≠ "" ->
  fetch e (SoilGrids lat lon) =
    FetchResponse status (Parsed (soilgrids_with_ph_mean mean depths layers)) ->
  ok status = true ->
  is_number mean = false ->
  soil rt res e q =
  ([Fetch (SoilGrids lat lon); ResJson (soil_mock rt lat lon)], Normal ()).
Proof.
  intros Hlat Hlon Hla Hlo Hfetch Hok Hmean.
  assert (Hthrown : exists err, snd (soil_primary e lat lon) = Thrown err).
  { unfold soil_primary, do_fetch. rewrite Hfetch. simp. rewrite Hok.
    destruct mean; try discriminate Hmean; eexists; reflexivity. }
  destruct Hthrown as [err Herr].
  exact (soil_fallback_run rt res q lat lon Hlat Hlon Hla Hlo e err Herr).
Qed.

(** X16.  An archive reply without daily data, or whose daily data has no
    precipitation sums, gives twelve months of 0. *)
Theorem rain_result_no_data rt data :
  truthy (get_opt (Some data) "daily") = false \/
  truthy (get_opt (get_opt (Some data) "daily") "precipitation_sum") = false ->
  rain_result rt data = Normal (rain_entries (replicate 12 (Fin 0))).
Proof.
  intros H. unfold rain_result, or_else.
  destruct (truthy (get_opt (Some data) "daily")) eqn:Hd.
  - destruct H as [H | H]; [discriminate H |]. rewrite H. reflexivity.
  - reflexivity.
Qed.

(** X17.  Precipitation sums without the array of days are an error, not
    twelve zeros: the first day's date cannot be read and the aggregation
    throws. *)
Theorem rain_result_without_time rt data fs v vs :
  get_opt (Some data) "daily" = Some (JObj fs) ->
  assoc "precipitation_sum" fs = Some (JArr (v :: vs)) ->
  assoc "time" fs = None ->
  rain_result rt data = Thrown (cannot_read "undefined" "0").
Proof.
  intros Hd Hp Ht. unfold rain_result. rewrite Hd.
  cbn [or_else truthy get_opt get_prop]. rewrite Hp, Ht. reflexivity.
Qed.

Lemma forEach_day_app rt time a b : forall monthly i,
  forEach_day rt time monthly i (a ++ b) =
  (monthly' ← forEach_day rt time monthly i a;
   forEach_day rt time monthly' (i + length a) b).
Proof.
  induction a as [| val a IH]; intros monthly i.
  - cbn. rewrite Nat.add_0_r. reflexivity.
  - cbn [app forEach_day length]. destruct (add_day rt time monthly i val) as [m1 | err].
    + cbn [mbind completion_bind]. rewrite IH, Nat.add_succ_r. reflexivity.
    + reflexivity.
Qed.

Lemma forEach_day_beyond rt ts extra : forall monthly i,
  (length ts <= i)%nat ->
  forEach_day rt (Some (JArr ts)) monthly i extra = Normal monthly.
Proof.
  induction extra as [| val extra IH]; intros monthly i Hi; [reflexivity |].
  cbn [forEach_day]. unfold add_day.
  change (at_index (Some (JArr ts)) i) with (Normal (ts !! i)).
  rewrite (lookup_ge_None_2 ts i Hi). cbn [mbind completion_bind new_Date].
  apply IH. lia.
Qed.

Lemma forEach_day_days rt ts1 ts2 ps : forall monthly i,
  (forall j, (i <= j < i + length ps)%nat -> ts1 !! j = ts2 !! j) ->
  forEach_day rt (Some (JArr ts1)) monthly i ps =
  forEach_day rt (Some (JArr ts2)) monthly i ps.
Proof.
  induction ps as [| val ps IH]; intros monthly i H; [reflexivity |].
  cbn [forEach_day]. unfold add_day.
  change (at_index (Some (JArr ts1)) i) with (Normal (ts1 !! i)).
  change (at_index (Some (JArr ts2)) i) with (Normal (ts2 !! i)).
  rewrite (H i) by (cbn; lia).
  match goal with |- ?x ≫= _ = _ => destruct x as [m1 | err] end; [| reflexivity].
  cbn [mbind completion_bind]. apply IH. intros j Hj. apply H. cbn. lia.
Qed.

(** X18.  The aggregation pairs values and days by position and stops at
    the shorter array: precipitation values past the end of the array of
    days are ignored, and so are days past the end of the values. *)
Theorem rain_result_unpaired rt ts ps extra :
  ((length ts <= length ps)%nat ->
   rain_result rt (archive_response ts (ps ++ extra)) =
   rain_result rt (archive_response ts ps)) /\
  ((length ps <= length ts)%nat ->
   rain_result rt (archive_response (ts ++ extra) ps) =
   rain_result rt (archive_response ts ps)).
Proof.
  split; intros Hlen; rewrite !rain_result_arrays.
  - rewrite forEach_day_app.
    destruct (forEach_day rt (Some (JArr ts)) (replicate 12 (fin 0)) 0 ps)
      as [monthly | err]; [| reflexivity].
    cbn [mbind completion_bind]. rewrite forEach_day_beyond by (cbn; lia). reflexivity.
  - rewrite (forEach_day_days rt (ts ++ extra) ts); [reflexivity |].
    intros j Hj. apply lookup_app_l. cbn in Hj. lia.
Qed.

(** * Instances of the further properties *)

Lemma handler_local_answers_witness :
  handler (host 0) (app_router_handle (host 0) stub_res offline) options_event =
    Returned (Envelope 200 cors_headers "") /\
  (exists text, handler (host 0) (app_router_handle (host 0) stub_res offline) health_event =
                Returned (Envelope 200 cors_headers text)) /\
  handler (host 0) (app_router_handle (host 0) stub_res offline) unknown_event =
    Returned (Envelope 404 cors_headers (error_text "Not found")).
Proof.
  split; [| split].
  - apply (proj1 (handler_local_answers
                    (host 0) (app_router_handle (host 0) stub_res offline) options_event)).
    reflexivity.
  - eexists.
    apply (proj1 (proj2 (handler_local_answers
                    (host 0) (app_router_handle (host 0) stub_res offline) health_event))).
    + discriminate.
    + reflexivity.
  - apply (proj2 (proj2 (handler_local_answers
                    (host 0) (app_router_handle (host 0) stub_res offline) unknown_event))).
    + discriminate.
    + change (route_of unknown_event) with "/nope". unfold proxy_routes.
      intros H. repeat (apply elem_of_cons in H as [H | H]; [discriminate H |]).
      apply elem_of_nil in H. exact H.
Defined.

Lemma handler_statuses_witness :
  (statusCode (Envelope 404 cors_headers (error_text "Not found")) = 200 /\
   (httpMethod unknown_event = "OPTIONS" \/ route_of unknown_event = "/health")) \/
  (statusCode (Envelope 404 cors_headers (error_text "Not found")) = 404 /\
   httpMethod unknown_event ≠ "OPTIONS" /\
   route_of unknown_event ∉ "/health" :: proxy_routes) \/
  (statusCode (Envelope 404 cors_headers (error_text "Not found")) = 500 /\
   httpMethod unknown_event ≠ "OPTIONS" /\ route_of unknown_event ∈ proxy_routes).
Proof.
  apply (handler_statuses (host 0) (app_router_handle (host 0) stub_res offline)
           unknown_event).
  reflexivity.
Defined.

Lemma handler_prefix_witness :
  handler (host 0) (route_layer (host 0) stub_res offline) soil_event =
  handler (host 0) (route_layer (host 0) stub_res offline)
          (Event "/soil" "GET" (Some coordinates) None).
Proof.
  apply (handler_prefix_irrelevant (host 0) (route_layer (host 0) stub_res offline)
           "/soil" "GET" (Some coordinates) None).
  reflexivity.
Defined.

Lemma upstream_failure_witness :
  rain_history (host 0) express_res offline_with_key everything =
    ([Fetch (OpenMeteoArchive "10" "20"); ResStatus 500;
      ResJson (error_body "Rain history fetch failed")], Normal ()) /\
  geocode (host 0) express_res offline_with_key everything =
    ([Fetch (Nominatim "Pune"); ResStatus 500;
      ResJson (error_body "Geocoding failed")], Normal ()) /\
  weather express_res offline_with_key everything =
    ([Fetch (OpenWeather "10" "20" "k"); ResStatus 500;
      ResJson (error_body "Weather data fetch failed")], Normal ()).
Proof.
  split; [| split].
  - apply (proj1 (upstream_failure_500 (host 0) offline_with_key everything) "10" "20");
      first [reflexivity | discriminate | exact I].
  - apply (proj1 (proj2 (upstream_failure_500 (host 0) offline_with_key everything)) "Pune");
      first [reflexivity | discriminate | exact I].
  - apply (proj2 (proj2 (upstream_failure_500 (host 0) offline_with_key everything))
             "10" "20" "k");
      first [reflexivity | discriminate | exact I].
Defined.

Lemma geocode_no_match_witness :
  geocode (host 0) express_res (replying (JArr [])) place =
  ([Fetch (Nominatim "Pune"); ResStatus 404;
    ResJson (error_body "Location not found")], Normal ()).
Proof.
  apply (geocode_no_match (host 0) (replying (JArr [])) place "Pune" 200 (JArr []));
    first [reflexivity | discriminate | right; reflexivity].
Defined.


Lemma weather_reading_witness :
  weather express_res (replying_with_key clear_sky) coordinates =
  ([Fetch (OpenWeather "10" "20" "k");
    ResJson (JObj [("temperature", JNum (Fin 31)); ("humidity", JNum (Fin 40));
                   ("description", JStr "clear sky"); ("wind_speed", JNum (Fin 3));
                   ("location", JStr "Pune")])],
   Normal ()).
Proof.
  apply (weather_reading (replying_with_key clear_sky) coordinates "10" "20" "k" 200
           (JNum (Fin 31)) (JNum (Fin 40)) (JStr "clear sky") (JNum (Fin 3)) (JStr "Pune") []);
    first [reflexivity | discriminate].
Defined.

Lemma weather_without_main_witness :
  weather express_res (replying_with_key (JObj [])) coordinates =
  ([Fetch (OpenWeather "10" "20" "k"); ResStatus 500;
    ResJson (error_body "Weather data fetch failed")], Normal ()).
Proof.
  apply (weather_without_main (replying_with_key (JObj [])) coordinates "10" "20" "k" 200
           (JObj []));
    first [reflexivity | discriminate | left; reflexivity].
Defined.

Lemma soil_project_layers_witness :
  soil_project (JObj []) = Normal soil_defaults.
Proof.
  apply (proj1 soil_project_layers (JObj [])); reflexivity.
Defined.

Lemma soil_unreadable_mean_witness :
  soil (host 0) express_res (replying (soilgrids_with_ph_mean JNull [] [])) coordinates =
  ([Fetch (SoilGrids "10" "20"); ResJson (soil_mock (host 0) "10" "20")], Normal ()).
Proof.
  apply (soil_unreadable_mean (host 0) express_res
           (replying (soilgrids_with_ph_mean JNull [] [])) coordinates "10" "20" 200
           JNull [] []);
    first [reflexivity | discriminate].
Defined.

Lemma rain_result_no_data_witness :
  rain_result (host 0) (JObj []) = Normal (rain_entries (replicate 12 (Fin 0))).
Proof.
  apply (rain_result_no_data (host 0) (JObj [])). left. reflexivity.
Defined.

Lemma rain_result_without_time_witness :
  rain_result (host 0) sums_without_days = Thrown (cannot_read "undefined" "0").
Proof.
  apply (rain_result_without_time (host 0) sums_without_days
           [("precipitation_sum", JArr [JNum (Fin 5)])] (JNum (Fin 5)) []);
    reflexivity.
Defined.

Lemma rain_result_unpaired_witness :
  rain_result (host 0) (archive_response [JStr "2023-01-01"] ([JNum (Fin 5)] ++ [JNum (Fin 7)])) =
    rain_result (host 0) (archive_response [JStr "2023-01-01"] [JNum (Fin 5)]) /\
  rain_result (host 0) (archive_response ([JStr "2023-01-01"] ++ [JStr "2023-02-01"])
                                         [JNum (Fin 5)]) =
    rain_result (host 0) (archive_response [JStr "2023-01-01"] [JNum (Fin 5)]).
Proof.
  split.
  - apply (proj1 (rain_result_unpaired (host 0) [JStr "2023-01-01"] [JNum (Fin 5)]
                    [JNum (Fin 7)])).
    cbn. lia.
  - apply (proj2 (rain_result_unpaired (host 0) [JStr "2023-01-01"] [JNum (Fin 5)]
                    [JStr "2023-02-01"])).
    cbn. lia.
Defined.

Lemma rain_result_totals_witness :
  rain_entries (Fin 8 :: replicate 11 (Fin 0)) =
  rain_entries
    (map (fun m => toFixed 1 (fold_left num_add
                                (month_values (host 0)
                                   (Some (JArr [JStr "2023-01-01"; JStr "2023-01-15"])) m 0
                                   [JNum (Fin 5); JNum (Fin 3)]) (fin 0)))
         (seq 0 12)).
Proof.
  apply (rain_result_totals (host 0) [JStr "2023-01-01"; JStr "2023-01-15"]
           [JNum (Fin 5); JNum (Fin 3)]).
  vm_compute. reflexivity.
Defined.

Lemma handler_on_application_witness :
  handler (host 0) (app_router_handle (host 0) stub_res offline) soil_event =
  Returned (Envelope 500 cors_headers (error_text "res.setHeader is not a function")).
Proof.
  apply (handler_on_application (host 0) offline soil_event "/soil").
  - discriminate.
  - reflexivity.
  - apply list_elem_of_here.
Defined.
